(** * AuthenticationManager: a shallow embedding and its contract

    Source: [src/typescript-front-end-refactoring/src/authentication_manager.ts].

    The class is a browser-side client: it reads and writes one key of
    [localStorage], issues HTTP requests through [fetch] and logs to
    [console.error].  The embedding makes the three effects explicit:

    - the browser is a [World]: the contents of [localStorage], the lines
      written to the console, and the requests issued so far;
    - the network (the [fetch] implementation together with the server
      behind it) is a function from the requests seen so far and the new
      request to a settled promise of a [Response];
    - an [async] method is a function from a world to an [Outcome]
      (resolved value or rejection reason) and the world it leaves.

    One call is run at a time, from start to finish: other code that runs
    while a method is suspended at an [await] is outside the model, and
    [localStorage] is an ideal store (no quota, always accessible).

    [isLoggedIn] promises the most of its host - that it never fails - and
    is embedded a second time, as [isLoggedIn_on], on a host that may keep
    the page from its storage and on a network whose promises may never
    settle. *)

From Stdlib Require Import ZArith Ascii String.
From stdpp Require Import base option gmap strings list pretty.

Set Warnings "-register-all".
Local Open Scope string_scope.
Local Open Scope Z_scope.

(** ** The language: values, errors, promises *)

(** JavaScript numbers are IEEE doubles; the client never computes with
    them, it only prints them (string concatenation, [setItem]).  The type
    and its printer are an interface. *)
Class JSNumber := {
  Number : Type;
  Number_toString : Number -> string
}.

Module JS.

(** What can be thrown or be the reason of a rejection. *)
Inductive JSError :=
| Error (message : string)            (* [new Error(message)] *)
| TypeError                           (* raised by the language itself *)
| HostError (name message : string).  (* raised by [fetch] or by reading a body *)

Inductive Outcome (A : Type) :=
| Resolved (a : A)
| Rejected (e : JSError).
Arguments Resolved {A} a.
Arguments Rejected {A} e.

(** A promise of the host, seen from the end of time: when it settles and
    how. *)
Record Promise (A : Type) := { settled_at : nat; outcome : Outcome A }.
Arguments settled_at {A} p.
Arguments outcome {A} p.

Section Values.
Context `{JSNumber}.

(** The values [JSON.parse] produces.  An object is the list of its own
    properties. *)
Inductive JSON :=
| JNull
| JBool (b : bool)
| JNumber (n : Number)
| JString (s : string)
| JArray (elements : list JSON)
| JObject (properties : list (string * JSON)).

Definition own_property (key : string) (properties : list (string * JSON)) : option JSON :=
  snd <$> List.find (fun p => String.eqb (fst p) key) properties.

(** [ToString], also what [+] with a string operand applies to the other
    operand.  [None] is a thrown [TypeError]: a parsed object that has an
    own property [toString] shadows [Object.prototype.toString] with a
    value that is not callable, and [Object.prototype.valueOf] returns the
    object itself.  [Array.prototype.join] prints [null] as the empty
    string. *)
Fixpoint ToString (v : JSON) : option string :=
  match v with
  | JNull => Some "null"
  | JBool true => Some "true"
  | JBool false => Some "false"
  | JNumber n => Some (Number_toString n)
  | JString s => Some s
  | JArray elements =>
      (fix join (l : list JSON) : option string :=
         match l with
         | [] => Some EmptyString
         | x :: rest =>
             match (match x with JNull => Some EmptyString | _ => ToString x end) with
             | None => None
             | Some s =>
                 match rest with
                 | [] => Some s
                 | _ :: _ =>
                     match join rest with
                     | None => None
                     | Some r => Some (s +:+ "," +:+ r)
                     end
                 end
             end
         end) elements
  | JObject properties =>
      match own_property "toString" properties with
      | Some _ => None
      | None => Some "[object Object]"
      end
  end.

(** A value that may be [undefined] ([None]). *)
Definition ToString_value (v : option JSON) : option string :=
  match v with
  | None => Some "undefined"
  | Some j => ToString j
  end.

(** [const { username } = v]: [null] cannot be destructured; a property
    that is neither own nor inherited reads as [undefined]. *)
Definition destructure (key : string) (v : JSON) : Outcome (option JSON) :=
  match v with
  | JNull => Rejected TypeError
  | JObject properties => Resolved (own_property key properties)
  | _ => Resolved None
  end.

End Values.

(** *** [JSON.stringify] of an object literal of strings and nulls *)

Definition hex_digit (n : N) : ascii :=
  match n with
  | 0 => "0" | 1 => "1" | 2 => "2" | 3 => "3" | 4 => "4" | 5 => "5"
  | 6 => "6" | 7 => "7" | 8 => "8" | 9 => "9" | 10 => "a" | 11 => "b"
  | 12 => "c" | 13 => "d" | 14 => "e" | _ => "f"
  end%N%char.

Definition backslash : ascii := "092"%char.
Definition dquote : ascii := "034"%char.

(** One code unit of [QuoteJSONString].  Strings are byte strings (UTF-8):
    every byte of a multi-byte character is above 127 and is copied. *)
Definition quote_char (c : ascii) : string :=
  let n := N_of_ascii c in
  if (n =? 8)%N then String backslash "b"
  else if (n =? 9)%N then String backslash "t"
  else if (n =? 10)%N then String backslash "n"
  else if (n =? 12)%N then String backslash "f"
  else if (n =? 13)%N then String backslash "r"
  else if (n =? 34)%N then String backslash (String dquote EmptyString)
  else if (n =? 92)%N then String backslash (String backslash EmptyString)
  else if (n <? 32)%N then
    String backslash ("u00" +:+ String (hex_digit (n / 16)) (String (hex_digit (n mod 16)) EmptyString))
  else String c EmptyString.

Fixpoint quote_chars (s : string) : string :=
  match s with
  | EmptyString => EmptyString
  | String c rest => quote_char c +:+ quote_chars rest
  end.

Definition QuoteJSONString (s : string) : string :=
  String dquote (quote_chars s +:+ String dquote EmptyString).

(** A [string | null] property value. *)
Definition stringify_value (v : option string) : string :=
  match v with
  | None => "null"
  | Some s => QuoteJSONString s
  end.

Fixpoint stringify_properties (properties : list (string * option string)) : string :=
  match properties with
  | [] => EmptyString
  | [(k, v)] => QuoteJSONString k +:+ ":" +:+ stringify_value v
  | (k, v) :: rest =>
      QuoteJSONString k +:+ ":" +:+ stringify_value v +:+ "," +:+ stringify_properties rest
  end.

Definition JSON_stringify (properties : list (string * option string)) : string :=
  "{" +:+ stringify_properties properties +:+ "}".

(** [s + token] for a [string | null] token. *)
Definition concat_nullable (s : string) (v : option string) : string :=
  s +:+ match v with None => "null" | Some t => t end.

End JS.
Export JS.

(** ** The browser: storage, console, network *)

Module Browser.

(** The value of an option passed to [fetch]. *)
Inductive InitValue :=
| Str (s : string)
| Headers (h : gmap string string).

Record Request := {
  url : string;
  init : gmap string InitValue
}.

Section Host.
Context `{JSNumber}.

(** A response as the client reads it: its status and what [json()]
    settles to (each response is read at most once). *)
Record Response := {
  status : Z;
  body_json : Outcome JSON
}.

(** [Response.ok]: the status is in the range 200-299. *)
Definition ok (r : Response) : bool := (200 <=? status r) && (status r <=? 299).

(** [fetch] with everything behind it: the requests issued before, the new
    request, and the promise the new request gets. *)
Definition Network : Type := list Request -> Request -> Promise Response.

End Host.

Record World := {
  localStorage : gmap string string;
  console : list (string * JSError);
  network : list Request
}.

(** Synchronous code that does not throw. *)
Definition Eff (A : Type) : Type := World -> A * World.

(** The body of an [async] function, run until its promise settles. *)
Definition Async (A : Type) : Type := World -> Outcome A * World.

#[export] Instance Async_ret : MRet Async := fun A a w => (Resolved a, w).

#[export] Instance Async_bind : MBind Async := fun A B k m w =>
  match m w with
  | (Resolved a, w') => k a w'
  | (Rejected e, w') => (Rejected e, w')
  end.

Definition throw {A : Type} (e : JSError) : Async A := fun w => (Rejected e, w).

(** [try { body } catch (error) { handler }] *)
Definition try_catch {A : Type} (body : Async A) (handler : JSError -> Async A) : Async A :=
  fun w =>
    match body w with
    | (Resolved a, w') => (Resolved a, w')
    | (Rejected e, w') => handler e w'
    end.

(** A synchronous step inside an [async] body. *)
Definition start {A : Type} (e : Eff A) : Async A :=
  fun w => let '(a, w') := e w in (Resolved a, w').

Definition await {A : Type} (p : Promise A) : Async A :=
  fun w => (outcome p, w).

(** A step that settles at once. *)
Definition settle {A : Type} (o : Outcome A) : Async A := fun w => (o, w).

(** A thrown [TypeError] where a conversion fails. *)
Definition or_TypeError {A : Type} (o : option A) : Async A :=
  match o with
  | Some a => mret a
  | None => throw TypeError
  end.

(** [Promise.all] of two promises: it resolves when both have, and rejects
    with the reason of the first one to reject. *)
Definition Promise_all {A B : Type} (p1 : Promise A) (p2 : Promise B) : Promise (A * B) :=
  match outcome p1, outcome p2 with
  | Resolved a, Resolved b =>
      {| settled_at := Nat.max (settled_at p1) (settled_at p2); outcome := Resolved (a, b) |}
  | Rejected e, Resolved _ => {| settled_at := settled_at p1; outcome := Rejected e |}
  | Resolved _, Rejected e => {| settled_at := settled_at p2; outcome := Rejected e |}
  | Rejected e1, Rejected e2 =>
      if (settled_at p1 <=? settled_at p2)%nat
      then {| settled_at := settled_at p1; outcome := Rejected e1 |}
      else {| settled_at := settled_at p2; outcome := Rejected e2 |}
  end.

(** The three ways a call changes the world. *)
Definition stored (f : gmap string string -> gmap string string) (w : World) : World :=
  {| localStorage := f (localStorage w); console := console w; network := network w |}.

Definition logged (label : string) (error : JSError) (w : World) : World :=
  {| localStorage := localStorage w; console := console w ++ [(label, error)];
     network := network w |}.

Definition sent (r : Request) (w : World) : World :=
  {| localStorage := localStorage w; console := console w; network := network w ++ [r] |}.

(** The methods of the storage object, on a host that lets the page at
    it.  Reading the [localStorage] property itself, which a host may
    refuse, is [localStorage_of] below. *)
Definition localStorage_getItem (key : string) : Eff (option string) :=
  fun w => (localStorage w !! key, w).

Definition localStorage_setItem (key value : string) : Eff unit :=
  fun w => (tt, stored (insert key value) w).

Definition localStorage_removeItem (key : string) : Eff unit :=
  fun w => (tt, stored (delete key) w).

Definition console_error (label : string) (error : JSError) : Eff unit :=
  fun w => (tt, logged label error w).

Section Fetch.
Context `{JSNumber} (net : Network).

Definition fetch (input : string) (options : gmap string InitValue) : Eff (Promise Response) :=
  fun w =>
    let r := {| url := input; init := options |} in
    (net (network w) r, sent r w).

(** [response.json()] *)
Definition json (r : Response) : Promise JSON :=
  {| settled_at := 0; outcome := body_json r |}.

End Fetch.

End Browser.
Export Browser.

(** ** The class *)

Record AuthenticationManager := { baseUrl : string }.

Section Methods.
Context `{JSNumber} (net : Network).

Definition defaultOptions : gmap string InitValue :=
  {[ "mode" := Str "cors";
     "headers" := Headers {[ "Content-Type" := "application/json" ]};
     "referrerPolicy" := Str "no-referrer" ]}.

(** [{ ...defaultOptions, ...options }]: the keys of both, the value of
    [options] where both have the key. *)
Definition request (this : AuthenticationManager) (url : string)
    (options : gmap string InitValue) : Eff (Promise Response) :=
  fetch net (baseUrl this +:+ url) (options ∪ defaultOptions).

Definition validateToken (this : AuthenticationManager) (token : option string) : Async bool :=
  p ← start (request this "/validateToken"
      {[ "method" := Str "POST";
         "body" := Str (JSON_stringify [("token", token)]) ]});
  response ← await p;
  mret (ok response).

Definition isLoggedIn (this : AuthenticationManager) : Async bool :=
  try_catch
    (token ← start (localStorage_getItem "auth_token");
     valid ← validateToken this token;
     (if negb valid then start (localStorage_removeItem "auth_token") else mret tt);;
     mret valid)
    (fun error =>
       start (console_error "Error validating token: " error);;
       start (localStorage_removeItem "auth_token");;
       mret false).

(** The object [{ profile, roles }]. *)
Record ProfileAndRoles := { profile : JSON; roles : JSON }.

Definition login (this : AuthenticationManager) (username password : string)
    (rememberMe : bool) : Async ProfileAndRoles :=
  try_catch
    (p ← start (request this "/login"
        {[ "method" := Str "POST";
           "body" := Str (JSON_stringify [("username", Some username);
                                          ("password", Some password)]) ]});
     loginResponse ← await p;
     (if negb (ok loginResponse) then throw (Error "Login failed") else mret tt);;
     (if rememberMe then
        token ← await (json loginResponse);
        value ← or_TypeError (ToString token);
        start (localStorage_setItem "auth_token" value)
      else mret tt);;
     p1 ← start (request this ("/profile/" +:+ username) ∅);
     p2 ← start (request this ("/roles/" +:+ username) ∅);
     '(profileResponse, rolesResponse) ← await (Promise_all p1 p2);
     profile ← await (json profileResponse);
     roles ← await (json rolesResponse);
     mret {| profile := profile; roles := roles |})
    (fun error =>
       start (console_error "Login error: " error);;
       throw error).

Definition getProfileForLoggedInUser (this : AuthenticationManager) : Async ProfileAndRoles :=
  try_catch
    (token ← start (localStorage_getItem "auth_token");
     p ← start (request this (concat_nullable "/get?token=" token) ∅);
     userResponse ← await p;
     user ← await (json userResponse);
     username ← settle (destructure "username" user);
     path1 ← or_TypeError (ToString_value username);
     p1 ← start (request this ("/profile/" +:+ path1) ∅);
     path2 ← or_TypeError (ToString_value username);
     p2 ← start (request this ("/roles/" +:+ path2) ∅);
     '(profileResponse, rolesResponse) ← await (Promise_all p1 p2);
     profile ← await (json profileResponse);
     roles ← await (json rolesResponse);
     mret {| profile := profile; roles := roles |})
    (fun error =>
       start (console_error "Error fetching profile: " error);;
       throw error).

Definition logout (this : AuthenticationManager) : Async unit :=
  try_catch
    (token ← start (localStorage_getItem "auth_token");
     p ← start (request this "/logout"
        {[ "method" := Str "POST";
           "body" := Str (JSON_stringify [("token", token)]) ]});
     await p;;
     start (localStorage_removeItem "auth_token"))
    (fun error =>
       start (console_error "Logout error: " error);;
       throw error).

End Methods.

(** ** [isLoggedIn] on a host that can fail *)

(** Where the page may not use storage (storage turned off for the site, a
    sandboxed frame), reading the [localStorage] property itself throws. *)
Inductive StorageAccess :=
| Accessible
| Blocked (e : JSError).

(** How far a call gets: its promise settles, or the call waits for ever
    at an [await]. *)
Inductive Run (A : Type) :=
| Settles (o : Outcome A) (w : World)
| Waits (w : World).
Arguments Settles {A} o w.
Arguments Waits {A} w.

Definition world_of {A : Type} (run : Run A) : World :=
  match run with
  | Settles _ w => w
  | Waits w => w
  end.

(** The body of an [async] function on such a host. *)
Definition Task (A : Type) : Type := World -> Run A.

#[export] Instance Task_ret : MRet Task := fun A a w => Settles (Resolved a) w.

#[export] Instance Task_bind : MBind Task := fun A B k m w =>
  match m w with
  | Settles (Resolved a) w' => k a w'
  | Settles (Rejected e) w' => Settles (Rejected e) w'
  | Waits w' => Waits w'
  end.

(** [try { body } catch (error) { handler }]: a body that waits for ever
    never reaches the handler. *)
Definition Task_try_catch {A : Type} (body : Task A) (handler : JSError -> Task A) : Task A :=
  fun w =>
    match body w with
    | Settles (Resolved a) w' => Settles (Resolved a) w'
    | Settles (Rejected e) w' => handler e w'
    | Waits w' => Waits w'
    end.

(** A synchronous step. *)
Definition step {A : Type} (e : Eff A) : Task A :=
  fun w => let '(a, w') := e w in Settles (Resolved a) w'.

(** [await] of a promise that may never settle ([None]). *)
Definition Task_await {A : Type} (p : option (Promise A)) : Task A :=
  fun w =>
    match p with
    | Some p => Settles (outcome p) w
    | None => Waits w
    end.

(** The expression [localStorage]. *)
Definition localStorage_of (access : StorageAccess) : Task unit :=
  match access with
  | Accessible => mret tt
  | Blocked e => fun w => Settles (Rejected e) w
  end.

(** What a call of an ideal host comes to on this one. *)
Definition settled {A : Type} (run : Outcome A * World) : Run A := Settles run.1 run.2.

Section HostMethods.
Context `{JSNumber}.

(** A network some of whose promises never settle. *)
Definition SlowNetwork : Type := list Request -> Request -> option (Promise Response).

(** A network that always answers, as a slow network. *)
Definition prompt (net : Network) : SlowNetwork := fun history r => Some (net history r).

Variables (access : StorageAccess) (slow : SlowNetwork).

Definition fetch_on (input : string) (options : gmap string InitValue)
    : Eff (option (Promise Response)) :=
  fun w =>
    let r := {| url := input; init := options |} in
    (slow (network w) r, sent r w).

Definition request_on (this : AuthenticationManager) (url : string)
    (options : gmap string InitValue) : Eff (option (Promise Response)) :=
  fetch_on (baseUrl this +:+ url) (options ∪ defaultOptions).

Definition validateToken_on (this : AuthenticationManager) (token : option string) : Task bool :=
  p ← step (request_on this "/validateToken"
      {[ "method" := Str "POST";
         "body" := Str (JSON_stringify [("token", token)]) ]});
  response ← Task_await p;
  mret (ok response).

Definition isLoggedIn_on (this : AuthenticationManager) : Task bool :=
  Task_try_catch
    (localStorage_of access;;
     token ← step (localStorage_getItem "auth_token");
     valid ← validateToken_on this token;
     (if negb valid
      then localStorage_of access;; step (localStorage_removeItem "auth_token")
      else mret tt);;
     mret valid)
    (fun error =>
       step (console_error "Error validating token: " error);;
       localStorage_of access;;
       step (localStorage_removeItem "auth_token");;
       mret false).

End HostMethods.

(** ** The requests the methods issue *)

Definition the_request (this : AuthenticationManager) (path : string)
    (options : gmap string InitValue) : Request :=
  {| url := baseUrl this +:+ path; init := options ∪ defaultOptions |}.

Definition post (body : string) : gmap string InitValue :=
  {[ "method" := Str "POST"; "body" := Str body ]}.

Definition validate_request (this : AuthenticationManager) (token : option string) : Request :=
  the_request this "/validateToken" (post (JSON_stringify [("token", token)])).

Definition login_request (this : AuthenticationManager) (username password : string) : Request :=
  the_request this "/login"
    (post (JSON_stringify [("username", Some username); ("password", Some password)])).

Definition profile_request (this : AuthenticationManager) (username : string) : Request :=
  the_request this ("/profile/" +:+ username) ∅.

Definition roles_request (this : AuthenticationManager) (username : string) : Request :=
  the_request this ("/roles/" +:+ username) ∅.

Definition whoami_request (this : AuthenticationManager) (token : option string) : Request :=
  the_request this (concat_nullable "/get?token=" token) ∅.

Definition logout_request (this : AuthenticationManager) (token : option string) : Request :=
  the_request this "/logout" (post (JSON_stringify [("token", token)])).

(** The session token store of the specification: the one key the class
    uses. *)
Definition stored_token (w : World) : option string := localStorage w !! "auth_token".

(** A step leaves [localStorage] as it found it, however it settles. *)
Definition preserves_storage {A : Type} (m : Async A) : Prop :=
  ∀ w, localStorage (m w).2 = localStorage w.

(** What the joint wait on the profile and roles requests and the two
    body reads come to, from the promises of the two requests. *)
Definition combined `{JSNumber} (p1 p2 : Promise Response) : Outcome ProfileAndRoles :=
  match outcome (Promise_all p1 p2) with
  | Resolved (profileResponse, rolesResponse) =>
      match body_json profileResponse, body_json rolesResponse with
      | Resolved profile, Resolved roles => Resolved {| profile := profile; roles := roles |}
      | Rejected e, _ => Rejected e
      | Resolved _, Rejected e => Rejected e
      end
  | Rejected e => Rejected e
  end.

(** The [catch] clause of [login], [getProfileForLoggedInUser] and
    [logout]: log the error and throw it again. *)
Definition rethrown {A : Type} (label : string) (run : Outcome A * World) : Outcome A * World :=
  match run with
  | (Resolved a, w) => (Resolved a, w)
  | (Rejected e, w) => (Rejected e, logged label e w)
  end.

(** After an accepted login, a later step fails: one of the two requests
    does not complete, or a body that arrived cannot be parsed. *)
Definition later_step_fails `{JSNumber} (p1 p2 : Promise Response) : Prop :=
  (∃ e, outcome p1 = Rejected e) ∨
  (∃ e, outcome p2 = Rejected e) ∨
  (∃ a e, outcome p1 = Resolved a ∧ body_json a = Rejected e) ∨
  (∃ b e, outcome p2 = Resolved b ∧ body_json b = Rejected e).

(** ** Scenarios *)

Module Scenario.

(** Numbers that are integers, printed in decimal. *)
Definition integers : JSNumber := {| Number := Z; Number_toString := pretty |}.
#[local] Existing Instance integers.

Definition client : AuthenticationManager := {| baseUrl := "https://auth.test" |}.

Definition fresh : World := {| localStorage := ∅; console := []; network := [] |}.

Definition holding (token : string) : World :=
  {| localStorage := {[ "auth_token" := token ]}; console := []; network := [] |}.

Definition respond (code : Z) (body : Outcome JSON) : Promise Response :=
  {| settled_at := 1; outcome := Resolved {| status := code; body_json := body |} |}.

Definition no_body : Outcome JSON :=
  Rejected (HostError "SyntaxError" "Unexpected end of JSON input").

Definition unreachable : Promise Response :=
  {| settled_at := 1; outcome := Rejected (HostError "TypeError" "Failed to fetch") |}.

(** A server given by its routes; what is not routed is not found. *)
Fixpoint route (routes : list (string * Promise Response)) (path : string) : Promise Response :=
  match routes with
  | [] => respond 404 no_body
  | (p, answer) :: rest => if String.eqb path p then answer else route rest path
  end.

Definition serve (routes : list (string * Promise Response)) : Network :=
  fun _ r => route routes (url r).

Definition bob_routes : list (string * Promise Response) :=
  [ ("https://auth.test/login", respond 200 (Resolved (JString "tok123")));
    ("https://auth.test/profile/bob", respond 200 (Resolved (JObject [("name", JString "Bob")])));
    ("https://auth.test/roles/bob", respond 200 (Resolved (JArray [JString "admin"])));
    ("https://auth.test/get?token=tok123",
       respond 200 (Resolved (JObject [("username", JString "bob")])));
    ("https://auth.test/validateToken", respond 200 (Resolved JNull));
    ("https://auth.test/logout", respond 204 no_body) ].

(** The server of the specification's scenarios. *)
Definition bob_server : Network := serve bob_routes.

(** A server that refuses every credential and every token. *)
Definition strict_server : Network :=
  serve [ ("https://auth.test/login", respond 403 no_body);
          ("https://auth.test/validateToken", respond 401 no_body) ].

(** A server that accepts the login but answers it with no body. *)
Definition silent_server : Network :=
  serve [ ("https://auth.test/login", respond 200 no_body) ].

(** A server that logs in but has lost the roles. *)
Definition forgetful_server : Network :=
  serve [ ("https://auth.test/login", respond 200 (Resolved (JString "tok123")));
          ("https://auth.test/profile/bob", respond 200 (Resolved (JObject [("name", JString "Bob")])));
          ("https://auth.test/roles/bob", unreachable) ].

Definition offline : Network := fun _ _ => unreachable.

(** A browser that also keeps a setting of the application. *)
Definition themed (token : string) : World :=
  {| localStorage := {[ "auth_token" := token; "theme" := "dark" ]};
     console := []; network := [] |}.

(** A server that answers with error statuses and readable bodies. *)
Definition grumpy_server : Network :=
  serve [ ("https://auth.test/get?token=abc",
             respond 401 (Resolved (JObject [("username", JString "bob")])));
          ("https://auth.test/profile/bob",
             respond 404 (Resolved (JObject [("error", JString "no profile")])));
          ("https://auth.test/roles/bob", respond 500 (Resolved (JArray []))) ].

(** A server that answers [/get?token=abc] with the given body. *)
Definition whoami_server (body : JSON) : Network :=
  serve [ ("https://auth.test/get?token=abc", respond 200 (Resolved body)) ].

(** A server that answers [/login] with the given body. *)
Definition issuing_server (body : JSON) : Network :=
  serve [ ("https://auth.test/login", respond 200 (Resolved body)) ].

(** A server that accepts the login and then fails twice: the roles request
    after 2 ticks, the profile request after 5. *)
Definition failing_server : Network :=
  serve [ ("https://auth.test/login", respond 200 (Resolved (JString "tok123")));
          ("https://auth.test/profile/bob",
             {| settled_at := 5; outcome := Rejected (HostError "TypeError" "profile") |});
          ("https://auth.test/roles/bob",
             {| settled_at := 2; outcome := Rejected (HostError "TypeError" "roles") |}) ].

(** The error a browser raises where the page is denied its storage. *)
Definition storage_denied : JSError := HostError "SecurityError" "The operation is insecure.".

(** A network that never answers. *)
Definition stalled : SlowNetwork := fun _ _ => None.

End Scenario.

(** ** What a step may do to the world *)

(** Every run of [m] takes a world to one that [R] relates to it. *)
Definition step_keeps {A : Type} (R : World → World → Prop) (m : Async A) : Prop :=
  ∀ w, R w (m w).2.

(** The keys of [localStorage] that are not the token's. *)
Definition other_keys_kept (w w' : World) : Prop :=
  ∀ key, key ≠ "auth_token" → localStorage w' !! key = localStorage w !! key.

Definition console_kept (w w' : World) : Prop := console w' = console w.

(** A request built by [request] from options that leave the defaults
    alone. *)
Definition carries_defaults (this : AuthenticationManager) (r : Request) : Prop :=
  (∃ path, url r = baseUrl this +:+ path)
  ∧ init r !! "mode" = Some (Str "cors")
  ∧ init r !! "headers" = Some (Headers {[ "Content-Type" := "application/json" ]})
  ∧ init r !! "referrerPolicy" = Some (Str "no-referrer").

(** The requests made before are still there, in order, and those added
    carry the defaults. *)
Definition requests_added (this : AuthenticationManager) (w w' : World) : Prop :=
  ∃ new, network w' = (network w ++ new)%list ∧ Forall (carries_defaults this) new.

(** ** Reading a quoted string back *)

Definition unhex (c : ascii) : option N :=
  let n := N_of_ascii c in
  if ((48 <=? n) && (n <=? 57))%N then Some (n - 48)%N
  else if ((97 <=? n) && (n <=? 102))%N then Some (n - 87)%N
  else None.

(** The first character of the contents of a JSON string and what follows
    it, as a JSON parser reads them: [None] at the closing quote and at an
    escape [quote_char] does not write. *)
Definition unquote_char (s : string) : option (ascii * string) :=
  match s with
  | EmptyString => None
  | String c rest =>
      if Ascii.eqb c dquote then None
      else if Ascii.eqb c backslash then
        match rest with
        | EmptyString => None
        | String e rest' =>
            if Ascii.eqb e "b" then Some ("008"%char, rest')
            else if Ascii.eqb e "t" then Some ("009"%char, rest')
            else if Ascii.eqb e "n" then Some ("010"%char, rest')
            else if Ascii.eqb e "f" then Some ("012"%char, rest')
            else if Ascii.eqb e "r" then Some ("013"%char, rest')
            else if Ascii.eqb e dquote then Some (dquote, rest')
            else if Ascii.eqb e backslash then Some (backslash, rest')
            else if Ascii.eqb e "u" then
              match rest' with
              | String z1 (String z2 (String h (String l rest''))) =>
                  if Ascii.eqb z1 "0" && Ascii.eqb z2 "0" then
                    match unhex h, unhex l with
                    | Some a, Some b => Some (ascii_of_N (16 * a + b), rest'')
                    | _, _ => None
                    end
                  else None
              | _ => None
              end
            else None
        end
      else Some (c, rest)
  end.

(** ** Running the methods *)

Section Runs.
Context `{JSNumber} (net : Network).
Implicit Types (this : AuthenticationManager) (w : World) (r : Response).

Lemma ok_status r : ok r = true ↔ 200 ≤ status r ≤ 299.
Proof. unfold ok. rewrite andb_true_iff, !Z.leb_le. reflexivity. Qed.

Lemma not_ok_status r : ok r = false ↔ ¬ (200 ≤ status r ≤ 299).
Proof. rewrite <- ok_status. destruct (ok r); split; congruence. Qed.

(** [request] sends one request and hands back the promise of the network
    untouched. *)
Lemma request_run this path options w :
  request net this path options w
  = (net (network w) (the_request this path options), sent (the_request this path options) w).
Proof. reflexivity. Qed.

Lemma validateToken_run this token w :
  validateToken net this token w
  = (match outcome (net (network w) (validate_request this token)) with
     | Resolved r => Resolved (ok r)
     | Rejected e => Rejected e
     end, sent (validate_request this token) w).
Proof.
  unfold validateToken, mbind, Async_bind, start, await.
  rewrite request_run. fold (validate_request this token).
  destruct (outcome _); reflexivity.
Qed.

(** Every path through [isLoggedIn]. *)
Lemma isLoggedIn_run this w :
  let rq := validate_request this (stored_token w) in
  isLoggedIn net this w
  = match outcome (net (network w) rq) with
    | Resolved r =>
        (Resolved (ok r),
         if ok r then sent rq w else stored (delete "auth_token") (sent rq w))
    | Rejected e =>
        (Resolved false,
         stored (delete "auth_token") (logged "Error validating token: " e (sent rq w)))
    end.
Proof.
  intros rq. unfold isLoggedIn, try_catch, mbind, Async_bind at 1 2.
  unfold start at 1, localStorage_getItem. fold (stored_token w).
  rewrite validateToken_run. fold rq.
  destruct (outcome (net (network w) rq)) as [r|e]; [|reflexivity].
  destruct (ok r); reflexivity.
Qed.

(** Every path through [logout]. *)
Lemma logout_run this w :
  let rq := logout_request this (stored_token w) in
  logout net this w
  = match outcome (net (network w) rq) with
    | Resolved _ => (Resolved tt, stored (delete "auth_token") (sent rq w))
    | Rejected e => (Rejected e, logged "Logout error: " e (sent rq w))
    end.
Proof.
  intros rq. unfold logout, try_catch, mbind, Async_bind, await.
  unfold start at 1 2, localStorage_getItem. rewrite request_run.
  fold (stored_token w) (post (JSON_stringify [("token", stored_token w)])).
  fold (logout_request this (stored_token w)). fold rq.
  destruct (outcome (net (network w) rq)); reflexivity.
Qed.

Lemma request_on_run (slow : SlowNetwork) this path options w :
  request_on slow this path options w
  = (slow (network w) (the_request this path options), sent (the_request this path options) w).
Proof. reflexivity. Qed.

(** Every path through [isLoggedIn] on a host that can fail. *)
Lemma isLoggedIn_on_run (access : StorageAccess) (slow : SlowNetwork) this w :
  let rq := validate_request this (stored_token w) in
  isLoggedIn_on access slow this w
  = match access with
    | Blocked e => Settles (Rejected e) (logged "Error validating token: " e w)
    | Accessible =>
        match slow (network w) rq with
        | None => Waits (sent rq w)
        | Some p =>
            match outcome p with
            | Resolved r =>
                Settles (Resolved (ok r))
                  (if ok r then sent rq w else stored (delete "auth_token") (sent rq w))
            | Rejected e =>
                Settles (Resolved false)
                  (stored (delete "auth_token")
                     (logged "Error validating token: " e (sent rq w)))
            end
        end
    end.
Proof.
  intros rq. destruct access as [|e]; [|reflexivity].
  unfold isLoggedIn_on, Task_try_catch, validateToken_on, mbind, Task_bind, step,
    localStorage_of, localStorage_getItem, Task_await, mret, Task_ret.
  cbv beta iota zeta. rewrite request_on_run. fold (stored_token w).
  change (the_request this "/validateToken"
            {[ "method" := Str "POST";
               "body" := Str (JSON_stringify [("token", stored_token w)]) ]}) with rq.
  destruct (slow (network w) rq) as [p|]; [|reflexivity].
  destruct (outcome p) as [r|e]; [|reflexivity].
  destruct (ok r); reflexivity.
Qed.

(** On a host that lets the page at its storage, with a network that
    always answers, the two embeddings of [isLoggedIn] are one. *)
Lemma isLoggedIn_on_ideal this w :
  isLoggedIn_on Accessible (prompt net) this w = settled (isLoggedIn net this w).
Proof.
  rewrite isLoggedIn_on_run, isLoggedIn_run. unfold prompt, settled.
  destruct (outcome (net (network w) (validate_request this (stored_token w))))
    as [r|e]; [|reflexivity].
  destruct (ok r); reflexivity.
Qed.

End Runs.

(** ** Steps that leave the token store alone *)

Section Frame.
Context `{JSNumber} (net : Network).

Lemma preserves_mret {A : Type} (a : A) : preserves_storage (mret a).
Proof. intros w. reflexivity. Qed.

Lemma preserves_throw {A : Type} (e : JSError) : preserves_storage (@throw A e).
Proof. intros w. reflexivity. Qed.

Lemma preserves_settle {A : Type} (o : Outcome A) : preserves_storage (settle o).
Proof. intros w. reflexivity. Qed.

Lemma preserves_await {A : Type} (p : Promise A) : preserves_storage (await p).
Proof. intros w. reflexivity. Qed.

Lemma preserves_or_TypeError {A : Type} (o : option A) : preserves_storage (or_TypeError o).
Proof. intros w. destruct o; reflexivity. Qed.

Lemma preserves_getItem (key : string) : preserves_storage (start (localStorage_getItem key)).
Proof. intros w. reflexivity. Qed.

Lemma preserves_console_error (label : string) (e : JSError) :
  preserves_storage (start (console_error label e)).
Proof. intros w. reflexivity. Qed.

Lemma preserves_request (this : AuthenticationManager) (path : string)
    (options : gmap string InitValue) :
  preserves_storage (start (request net this path options)).
Proof. intros w. reflexivity. Qed.

Lemma preserves_bind {A B : Type} (m : Async A) (k : A → Async B) :
  preserves_storage m → (∀ a, preserves_storage (k a)) → preserves_storage (m ≫= k).
Proof.
  intros Hm Hk w. unfold mbind, Async_bind.
  specialize (Hm w). destruct (m w) as [[a|e] w']; simpl in *.
  - rewrite Hk. exact Hm.
  - exact Hm.
Qed.

Lemma preserves_try_catch {A : Type} (body : Async A) (handler : JSError → Async A) :
  preserves_storage body → (∀ e, preserves_storage (handler e)) →
  preserves_storage (try_catch body handler).
Proof.
  intros Hb Hh w. unfold try_catch.
  specialize (Hb w). destruct (body w) as [[a|e] w']; simpl in *.
  - exact Hb.
  - rewrite Hh. exact Hb.
Qed.

End Frame.

Create HintDb frame.
#[export] Hint Resolve preserves_mret preserves_throw preserves_settle preserves_await
  preserves_or_TypeError preserves_getItem preserves_console_error preserves_request : frame.

(** Walks down a method body, one bind at a time. *)
Ltac frame :=
  repeat match goal with
  | |- preserves_storage (mbind _ _) => apply preserves_bind
  | |- preserves_storage (try_catch _ _) => apply preserves_try_catch
  | |- preserves_storage (if ?b then _ else _) => destruct b
  | |- preserves_storage (let '(_, _) := ?x in _) => destruct x
  | |- ∀ _, _ => intro
  | |- preserves_storage _ => solve [auto with frame]
  end.

Section Login.
Context `{JSNumber} (net : Network).
Implicit Types (this : AuthenticationManager) (w : World) (r : Response).

(** *** The equations of the monad *)

Lemma run_start {A B : Type} (k : A → Async B) (e : Eff A) w :
  (start e ≫= k) w = k (e w).1 (e w).2.
Proof. unfold mbind, Async_bind, start. destruct (e w); reflexivity. Qed.

Lemma run_await {A B : Type} (k : A → Async B) (p : Promise A) w :
  (await p ≫= k) w
  = match outcome p with Resolved a => k a w | Rejected e => (Rejected e, w) end.
Proof. reflexivity. Qed.

Lemma run_mret {A B : Type} (k : A → Async B) (a : A) w : (mret a ≫= k) w = k a w.
Proof. reflexivity. Qed.

Lemma run_throw {A B : Type} (k : A → Async B) (e : JSError) w :
  (throw e ≫= k) w = (Rejected e, w).
Proof. reflexivity. Qed.

Lemma run_assoc {A B C : Type} (m : Async A) (k : A → Async B) (k' : B → Async C) w :
  ((m ≫= k) ≫= k') w = (m ≫= (λ a, k a ≫= k')) w.
Proof. unfold mbind, Async_bind. destruct (m w) as [[a|e] w']; reflexivity. Qed.

Lemma rethrown_storage {A : Type} (label : string) (run : Outcome A * World) :
  localStorage (rethrown label run).2 = localStorage run.2.
Proof. destruct run as [[a|e] w]; reflexivity. Qed.

Lemma rethrown_outcome {A : Type} (label : string) (run : Outcome A * World) :
  (rethrown label run).1 = run.1.
Proof. destruct run as [[a|e] w]; reflexivity. Qed.

(** The [catch] clauses of the three methods are [rethrown]. *)
Lemma try_catch_rethrown {A : Type} (label : string) (body : Async A) w :
  try_catch body (λ error, start (console_error label error);; throw error) w
  = rethrown label (body w).
Proof. unfold try_catch, rethrown. destruct (body w) as [[a|e] w']; reflexivity. Qed.

(** The two requests in flight together and the two body reads, as both
    [login] and [getProfileForLoggedInUser] end. *)
Lemma profile_and_roles_run this (username : string) w :
  (p1 ← start (request net this ("/profile/" +:+ username) ∅);
   p2 ← start (request net this ("/roles/" +:+ username) ∅);
   '(profileResponse, rolesResponse) ← await (Promise_all p1 p2);
   profile ← await (json profileResponse);
   roles ← await (json rolesResponse);
   mret {| profile := profile; roles := roles |}) w
  = (combined
       (net (network w) (profile_request this username))
       (net (network w ++ [profile_request this username])%list (roles_request this username)),
     sent (roles_request this username) (sent (profile_request this username) w)).
Proof.
  rewrite run_start, request_run. simpl fst; simpl snd.
  rewrite run_start, request_run. simpl fst; simpl snd.
  fold (profile_request this username) (roles_request this username).
  rewrite run_await. unfold combined. simpl network.
  destruct (outcome (Promise_all _ _)) as [[a b]|e]; [|reflexivity].
  rewrite run_await. simpl outcome.
  destruct (body_json a); [|destruct (body_json b); reflexivity].
  rewrite run_await. simpl outcome.
  destruct (body_json b); reflexivity.
Qed.

(** Up to the answer of the login request. *)
Lemma login_run this username password rememberMe w :
  let rq := login_request this username password in
  login net this username password rememberMe w
  = rethrown "Login error: "
      match outcome (net (network w) rq) with
      | Resolved loginResponse =>
          ((if negb (ok loginResponse) then throw (Error "Login failed") else mret tt);;
           (if rememberMe then
              token ← await (json loginResponse);
              value ← or_TypeError (ToString token);
              start (localStorage_setItem "auth_token" value)
            else mret tt);;
           p1 ← start (request net this ("/profile/" +:+ username) ∅);
           p2 ← start (request net this ("/roles/" +:+ username) ∅);
           '(profileResponse, rolesResponse) ← await (Promise_all p1 p2);
           profile ← await (json profileResponse);
           roles ← await (json rolesResponse);
           mret {| profile := profile; roles := roles |}) (sent rq w)
      | Rejected e => (Rejected e, sent rq w)
      end.
Proof.
  intros rq. unfold login. rewrite try_catch_rethrown. reflexivity.
Qed.

(** The network refuses the credentials. *)
Lemma login_refused this username password rememberMe w r :
  outcome (net (network w) (login_request this username password)) = Resolved r →
  ok r = false →
  login net this username password rememberMe w
  = (Rejected (Error "Login failed"),
     logged "Login error: " (Error "Login failed")
       (sent (login_request this username password) w)).
Proof.
  intros Hr Hok. rewrite login_run, Hr, Hok. reflexivity.
Qed.

(** The login request does not complete. *)
Lemma login_unreachable this username password rememberMe w e :
  outcome (net (network w) (login_request this username password)) = Rejected e →
  login net this username password rememberMe w
  = (Rejected e, logged "Login error: " e (sent (login_request this username password) w)).
Proof.
  intros Hr. rewrite login_run, Hr. reflexivity.
Qed.

(** The login is accepted but its body does not parse: nothing is stored
    and nothing more is requested. *)
Lemma login_body_unreadable this username password w r e :
  outcome (net (network w) (login_request this username password)) = Resolved r →
  ok r = true →
  body_json r = Rejected e →
  login net this username password true w
  = (Rejected e, logged "Login error: " e (sent (login_request this username password) w)).
Proof.
  intros Hr Hok Hbody. rewrite login_run, Hr, Hok. simpl negb. cbv iota.
  rewrite run_mret, run_assoc, run_await. simpl outcome. rewrite Hbody. reflexivity.
Qed.

(** The login is accepted and its body is a token that can be stored. *)
Lemma login_remembered this username password w r token value :
  outcome (net (network w) (login_request this username password)) = Resolved r →
  ok r = true →
  body_json r = Resolved token →
  ToString token = Some value →
  let w' := stored (insert "auth_token" value) (sent (login_request this username password) w) in
  login net this username password true w
  = rethrown "Login error: "
      (combined
         (net (network w') (profile_request this username))
         (net (network w' ++ [profile_request this username])%list (roles_request this username)),
       sent (roles_request this username) (sent (profile_request this username) w')).
Proof.
  intros Hr Hok Hbody Hvalue w'. rewrite login_run, Hr, Hok. simpl negb. cbv iota.
  rewrite run_mret, run_assoc, run_await. simpl outcome. rewrite Hbody.
  rewrite run_assoc, Hvalue. simpl or_TypeError. rewrite run_mret, run_start.
  simpl fst; simpl snd. fold w'. rewrite profile_and_roles_run. reflexivity.
Qed.

(** The login is accepted and the caller did not ask to be remembered. *)
Lemma login_not_remembered this username password w r :
  outcome (net (network w) (login_request this username password)) = Resolved r →
  ok r = true →
  let w' := sent (login_request this username password) w in
  login net this username password false w
  = rethrown "Login error: "
      (combined
         (net (network w') (profile_request this username))
         (net (network w' ++ [profile_request this username])%list (roles_request this username)),
       sent (roles_request this username) (sent (profile_request this username) w')).
Proof.
  intros Hr Hok w'. rewrite login_run, Hr, Hok. simpl negb. cbv iota.
  rewrite !run_mret. fold w'. rewrite profile_and_roles_run. reflexivity.
Qed.

End Login.

(** ** The contract *)

Section Contract.
Context `{JSNumber} (net : Network).
Implicit Types (this : AuthenticationManager) (w : World) (r : Response).

Lemma combined_resolves (p1 p2 : Promise Response) (a b : Response) (p r : JSON) :
  outcome p1 = Resolved a → outcome p2 = Resolved b →
  body_json a = Resolved p → body_json b = Resolved r →
  combined p1 p2 = Resolved {| profile := p; roles := r |}.
Proof.
  intros H1 H2 Ha Hb. unfold combined, Promise_all.
  rewrite H1, H2. simpl. rewrite Ha, Hb. reflexivity.
Qed.

Lemma combined_resolved (p1 p2 : Promise Response) (v : ProfileAndRoles) :
  combined p1 p2 = Resolved v →
  ∃ a b, outcome p1 = Resolved a ∧ outcome p2 = Resolved b
         ∧ body_json a = Resolved (profile v) ∧ body_json b = Resolved (roles v).
Proof.
  unfold combined, Promise_all.
  destruct (outcome p1) as [a|e1], (outcome p2) as [b|e2]; simpl;
    try discriminate; [|destruct (_ <=? _)%nat; discriminate].
  destruct (body_json a) as [p|] eqn:Ha, (body_json b) as [r|] eqn:Hb; try discriminate.
  intros [= <-]. exists a, b. simpl. rewrite Ha, Hb. repeat split.
Qed.

Lemma combined_rejects (p1 p2 : Promise Response) :
  later_step_fails p1 p2 → ∃ e, combined p1 p2 = Rejected e.
Proof.
  unfold later_step_fails, combined, Promise_all.
  intros [[e H1]|[[e H2]|[(a & e & H1 & Ha)|(b & e & H2 & Hb)]]].
  - rewrite H1. destruct (outcome p2); [eauto|].
    destruct (_ <=? _)%nat; eauto.
  - rewrite H2. destruct (outcome p1); [eauto|].
    destruct (_ <=? _)%nat; eauto.
  - rewrite H1. destruct (outcome p2); simpl; [|eauto].
    rewrite Ha. eauto.
  - rewrite H2. destruct (outcome p1) as [a|]; simpl; [|eauto].
    rewrite Hb. destruct (body_json a); eauto.
Qed.

(** C8. The request helper issues exactly one request, to [baseUrl + path],
    configured with the caller's options over the defaults (CORS mode, JSON
    content type, no referrer), and returns the promise of the network as
    it is, whatever the status.  [validateToken] posts to [/validateToken],
    resolves to [true] exactly when the status is in 200-299, and rejects
    with the reason of the request when the request does not complete. *)
Theorem request_contract this :
  (∀ path options w,
     let rq := {| url := baseUrl this +:+ path; init := options ∪ defaultOptions |} in
     request net this path options w = (net (network w) rq, sent rq w)
     ∧ network (sent rq w) = (network w ++ [rq])%list
     ∧ localStorage (sent rq w) = localStorage w)
  ∧ (∀ options key,
       (options ∪ defaultOptions) !! key
       = match options !! key with Some v => Some v | None => defaultOptions !! key end)
  ∧ (defaultOptions !! "mode" = Some (Str "cors")
     ∧ defaultOptions !! "headers" = Some (Headers {[ "Content-Type" := "application/json" ]})
     ∧ defaultOptions !! "referrerPolicy" = Some (Str "no-referrer"))
  ∧ (∀ token w,
       let rq := validate_request this token in
       url rq = baseUrl this +:+ "/validateToken"
       ∧ init rq !! "method" = Some (Str "POST")
       ∧ validateToken net this token w
         = (match outcome (net (network w) rq) with
            | Resolved r => Resolved (bool_decide (200 ≤ status r ≤ 299))
            | Rejected e => Rejected e
            end, sent rq w)).
Proof.
  repeat split.
  - intros options key. rewrite lookup_union.
    destruct (options !! key), (defaultOptions !! key); reflexivity.
  - rewrite validateToken_run. destruct (outcome _) as [r|e]; [|reflexivity].
    do 2 f_equal. case_bool_decide as Hs.
    + apply ok_status, Hs.
    + apply not_ok_status, Hs.
Qed.

(** C4. When the validation endpoint answers the stored token with a
    status in 200-299, [isLoggedIn] resolves to [true] and the token store
    is as it was. *)
Theorem isLoggedIn_valid this w r :
  outcome (net (network w) (validate_request this (stored_token w))) = Resolved r →
  200 ≤ status r ≤ 299 →
  ∃ w', isLoggedIn net this w = (Resolved true, w')
        ∧ localStorage w' = localStorage w
        ∧ stored_token w' = stored_token w.
Proof.
  intros Hr Hs. apply ok_status in Hs.
  rewrite isLoggedIn_run, Hr, Hs. eauto.
Qed.

(** C2, as the code has it.  When the validation endpoint answers with a
    status outside 200-299, [isLoggedIn] resolves to [false] and removes
    [auth_token], whether a token was stored or not.  When no token is
    stored the validation request is still sent, with a null token; the
    store stays empty, and the result is what the endpoint says of the null
    token: [false] unless it answers with a status in 200-299. *)
Theorem isLoggedIn_invalid this w :
  let rq := validate_request this (stored_token w) in
  (∀ r, outcome (net (network w) rq) = Resolved r → ¬ (200 ≤ status r ≤ 299) →
     ∃ w', isLoggedIn net this w = (Resolved false, w')
           ∧ localStorage w' = delete "auth_token" (localStorage w)
           ∧ stored_token w' = None)
  ∧ (stored_token w = None →
     rq = validate_request this None
     ∧ ∃ w', isLoggedIn net this w
             = (Resolved match outcome (net (network w) rq) with
                         | Resolved r => bool_decide (200 ≤ status r ≤ 299)
                         | Rejected _ => false
                         end, w')
             ∧ network w' = (network w ++ [rq])%list
             ∧ stored_token w' = None).
Proof.
  intros rq. split.
  - intros r Hr Hs. apply not_ok_status in Hs.
    rewrite isLoggedIn_run. fold rq. rewrite Hr, Hs.
    eexists. split; [reflexivity|]. split; [reflexivity|].
    unfold stored_token. simpl. apply lookup_delete_eq.
  - intros Hnone. split; [unfold rq; rewrite Hnone; reflexivity|].
    rewrite isLoggedIn_run. fold rq.
    destruct (outcome (net (network w) rq)) as [r|e].
    + case_bool_decide as Hs.
      * apply ok_status in Hs. rewrite Hs. eauto.
      * apply not_ok_status in Hs. rewrite Hs.
        eexists. split; [reflexivity|]. split; [reflexivity|].
        unfold stored_token. simpl. apply lookup_delete_eq.
    + eexists. split; [reflexivity|]. split; [reflexivity|].
      unfold stored_token. simpl. apply lookup_delete_eq.
Qed.

(** C6, as the code has it.  On a host that lets the page at its storage,
    once the validation request settles [isLoggedIn] resolves to a boolean
    and never rejects: [true] exactly when the request completes with a
    status in 200-299, and otherwise [false], with [auth_token] removed
    from the store.  While the request does not settle the call waits.
    Where reading [localStorage] throws, the error of the [try] block is
    caught and logged, the [removeItem] of the [catch] block throws in its
    turn, and [isLoggedIn] rejects with that error, no request made. *)
Theorem isLoggedIn_rejects_only_blocked (slow : SlowNetwork) this w :
  let rq := validate_request this (stored_token w) in
  (∀ p, slow (network w) rq = Some p →
     ∃ (b : bool) w',
       isLoggedIn_on Accessible slow this w = Settles (Resolved b) w'
       ∧ b = match outcome p with
             | Resolved r => bool_decide (200 ≤ status r ≤ 299)
             | Rejected _ => false
             end
       ∧ localStorage w' = (if b then localStorage w else delete "auth_token" (localStorage w))
       ∧ (if b then stored_token w' = stored_token w else stored_token w' = None))
  ∧ (slow (network w) rq = None →
     isLoggedIn_on Accessible slow this w = Waits (sent rq w))
  ∧ (∀ e, isLoggedIn_on (Blocked e) slow this w
          = Settles (Rejected e) (logged "Error validating token: " e w)).
Proof.
  intros rq. split; [|split].
  - intros p Hp. rewrite isLoggedIn_on_run. fold rq. rewrite Hp.
    destruct (outcome p) as [r|e].
    + case_bool_decide as Hs.
      * apply ok_status in Hs. rewrite Hs. eauto 6.
      * apply not_ok_status in Hs. rewrite Hs.
        do 2 eexists. repeat split. apply lookup_delete_eq.
    + do 2 eexists. repeat split. apply lookup_delete_eq.
  - intros Hp. rewrite isLoggedIn_on_run. fold rq. rewrite Hp. reflexivity.
  - intros e. apply isLoggedIn_on_run.
Qed.

(** C3. When the request to [/logout] completes, with any status, [logout]
    resolves and the token store is empty.  When the request does not
    complete, [logout] rejects with the same reason and the token store is
    as it was. *)
Theorem logout_contract this w :
  let rq := logout_request this (stored_token w) in
  (∀ r, outcome (net (network w) rq) = Resolved r →
     ∃ w', logout net this w = (Resolved tt, w')
           ∧ localStorage w' = delete "auth_token" (localStorage w)
           ∧ stored_token w' = None)
  ∧ (∀ e, outcome (net (network w) rq) = Rejected e →
       ∃ w', logout net this w = (Rejected e, w')
             ∧ localStorage w' = localStorage w
             ∧ stored_token w' = stored_token w).
Proof.
  intros rq. split.
  - intros r Hr. rewrite logout_run. fold rq. rewrite Hr.
    eexists. repeat split. apply lookup_delete_eq.
  - intros e Hr. rewrite logout_run. fold rq. rewrite Hr.
    eexists. repeat split.
Qed.

(** C5. With [rememberMe = false], [login] never writes to the token store:
    however the network behaves and however the call settles, the store is
    as it was. *)
Theorem login_not_remembered_frame this (username password : string) w :
  localStorage (login net this username password false w).2 = localStorage w
  ∧ stored_token (login net this username password false w).2 = stored_token w.
Proof.
  assert (Hframe : preserves_storage (login net this username password false)).
  { unfold login. lazy iota. frame. }
  unfold stored_token. rewrite Hframe. split; reflexivity.
Qed.

(** C10. [getProfileForLoggedInUser] never modifies the token store: whether
    it resolves or rejects, and at whatever step, the store is as it was. *)
Theorem getProfileForLoggedInUser_frame this w :
  localStorage (getProfileForLoggedInUser net this w).2 = localStorage w
  ∧ stored_token (getProfileForLoggedInUser net this w).2 = stored_token w.
Proof.
  assert (Hframe : preserves_storage (getProfileForLoggedInUser net this)).
  { unfold getProfileForLoggedInUser. frame. }
  unfold stored_token. rewrite Hframe. split; reflexivity.
Qed.

(** C7. When the request to [/login] completes with a status outside
    200-299, [login] rejects with the error [Login failed] and the token
    store is as it was, for either value of [rememberMe]. *)
Theorem login_refused_contract this (username password : string) (rememberMe : bool) w r :
  outcome (net (network w) (login_request this username password)) = Resolved r →
  ¬ (200 ≤ status r ≤ 299) →
  ∃ w', login net this username password rememberMe w = (Rejected (Error "Login failed"), w')
        ∧ localStorage w' = localStorage w
        ∧ stored_token w' = stored_token w.
Proof.
  intros Hr Hs. apply not_ok_status in Hs.
  rewrite (login_refused _ _ _ _ _ _ _ Hr Hs). eauto.
Qed.

(** C1. With [rememberMe = true], when the request to [/login] completes
    with a status in 200-299 and a body that parses to the token, the token
    store holds that token once [login] has settled; when the profile and
    roles requests complete with bodies that parse, [login] resolves to the
    two parsed bodies as [{ profile, roles }]; and whenever [login]
    resolves, its value is made of the parsed bodies of those two
    requests. *)
Theorem login_remember_me this (username password token : string) w lr :
  let rq := login_request this username password in
  outcome (net (network w) rq) = Resolved lr →
  200 ≤ status lr ≤ 299 →
  body_json lr = Resolved (JString token) →
  stored_token (login net this username password true w).2 = Some token
  ∧ (∀ pr rr (p r : JSON),
      outcome (net (network (sent rq w)) (profile_request this username)) = Resolved pr →
      outcome (net (network (sent (profile_request this username) (sent rq w)))
                 (roles_request this username)) = Resolved rr →
      body_json pr = Resolved p →
      body_json rr = Resolved r →
      (login net this username password true w).1 = Resolved {| profile := p; roles := r |})
  ∧ (∀ v, (login net this username password true w).1 = Resolved v →
       ∃ pr rr,
         outcome (net (network (sent rq w)) (profile_request this username)) = Resolved pr
         ∧ outcome (net (network (sent (profile_request this username) (sent rq w)))
                      (roles_request this username)) = Resolved rr
         ∧ body_json pr = Resolved (profile v)
         ∧ body_json rr = Resolved (roles v)).
Proof.
  intros rq Hr Hs Hbody. apply ok_status in Hs.
  rewrite (login_remembered _ _ _ _ _ _ _ token Hr Hs Hbody eq_refl).
  split; [|split].
  - unfold stored_token. rewrite rethrown_storage. simpl. apply lookup_insert_eq.
  - intros pr rr p r Hp Hq Hpb Hrb. rewrite rethrown_outcome. simpl fst.
    apply (combined_resolves _ _ pr rr); assumption.
  - intros v Hv. rewrite rethrown_outcome in Hv. simpl fst in Hv.
    apply combined_resolved in Hv. exact Hv.
Qed.

(** C9, as the code has it.  With [rememberMe = true] and a request to
    [/login] that completes with a status in 200-299: when the body parses
    to a token, and then the profile or the roles request does not complete
    or a body does not parse, [login] rejects and the token it has just
    written stays in the store; when the body of the login response itself
    does not parse, [login] rejects before anything is written and the
    store is as it was. *)
Theorem login_fails_after_accept this (username password : string) w lr :
  let rq := login_request this username password in
  outcome (net (network w) rq) = Resolved lr →
  200 ≤ status lr ≤ 299 →
  (∀ token value,
     body_json lr = Resolved token →
     ToString token = Some value →
     later_step_fails
       (net (network (sent rq w)) (profile_request this username))
       (net (network (sent (profile_request this username) (sent rq w)))
          (roles_request this username)) →
     ∃ e w', login net this username password true w = (Rejected e, w')
             ∧ stored_token w' = Some value)
  ∧ (∀ e, body_json lr = Rejected e →
       ∃ w', login net this username password true w = (Rejected e, w')
             ∧ localStorage w' = localStorage w
             ∧ stored_token w' = stored_token w).
Proof.
  intros rq Hr Hs. apply ok_status in Hs. split.
  - intros token value Hbody Hvalue Hfails.
    rewrite (login_remembered _ _ _ _ _ _ _ _ Hr Hs Hbody Hvalue).
    apply combined_rejects in Hfails as [e He].
    set (c := combined _ _). assert (Hc : c = Rejected e) by exact He.
    rewrite Hc. simpl.
    do 2 eexists. split; [reflexivity|]. apply lookup_insert_eq.
  - intros e Hbody.
    rewrite (login_body_unreadable _ _ _ _ _ _ _ Hr Hs Hbody). eauto.
Qed.

End Contract.

(** ** The contract at work *)

Section Examples.
Import Scenario.
Existing Instance integers.

(** The conversions of the language on a few values. *)
Example ToString_array :
  ToString (JArray [JNumber 1; JNull; JArray [JString "a"; JBool true]; JObject []])
  = Some "1,,a,true,[object Object]".
Proof. vm_compute. reflexivity. Qed.

Example ToString_shadowed :
  ToString (JArray [JString "a"; JObject [("toString", JNull)]]) = None.
Proof. reflexivity. Qed.

Example JSON_stringify_null_token :
  JSON_stringify [("token", None)]
  = String "{" (String dquote ("token" +:+ String dquote ":null}")).
Proof. reflexivity. Qed.

Example JSON_stringify_escapes :
  JSON_stringify [("token", Some (String dquote (String "010" "z")))]
  = String "{" (String dquote ("token" +:+ String dquote (":" +:+ String dquote
      (String backslash (String dquote (String backslash ("nz" +:+ String dquote "}"))))))).
Proof. reflexivity. Qed.

(** The profile of the user the stored token belongs to; without a token
    the server is asked about [null]. *)
Example getProfileForLoggedInUser_bob :
  (getProfileForLoggedInUser bob_server client (holding "tok123")).1
  = Resolved {| profile := JObject [("name", JString "Bob")];
                roles := JArray [JString "admin"] |}
  ∧ url <$> network (getProfileForLoggedInUser bob_server client fresh).2
    = ["https://auth.test/get?token=null"].
Proof. split; reflexivity. Qed.

(** Stored token [abc], validation answers 200: [true], store still [abc]. *)
Lemma isLoggedIn_valid_example :
  ∃ w', isLoggedIn bob_server client (holding "abc") = (Resolved true, w')
        ∧ localStorage w' = localStorage (holding "abc")
        ∧ stored_token w' = Some "abc".
Proof.
  apply (isLoggedIn_valid bob_server client (holding "abc")
           {| status := 200; body_json := Resolved JNull |}).
  - reflexivity.
  - simpl. lia.
Defined.

(** Stored token [abc], validation answers 401: [false], store empty.  And
    with no token stored the request goes out all the same. *)
Lemma isLoggedIn_invalid_example :
  (∃ w', isLoggedIn strict_server client (holding "abc") = (Resolved false, w')
         ∧ localStorage w' = delete "auth_token" (localStorage (holding "abc"))
         ∧ stored_token w' = None)
  ∧ (∃ w', isLoggedIn strict_server client fresh = (Resolved false, w')
           ∧ network w' = [validate_request client None]
           ∧ stored_token w' = None).
Proof.
  split.
  - apply (proj1 (isLoggedIn_invalid strict_server client (holding "abc"))
             {| status := 401; body_json := no_body |}).
    + reflexivity.
    + simpl. lia.
  - apply (proj2 (isLoggedIn_invalid strict_server client fresh)). reflexivity.
Defined.

(** No token stored and a server that answers 200 to the null token:
    [isLoggedIn] resolves to [true], not to [false]. *)
Lemma isLoggedIn_absent_token_counterexample :
  stored_token fresh = None
  ∧ ¬ (∃ w', isLoggedIn bob_server client fresh = (Resolved false, w')
             ∧ stored_token w' = None).
Proof.
  split; [reflexivity|].
  intros (w' & Hrun & _).
  assert (Htrue : (isLoggedIn bob_server client fresh).1 = Resolved true) by reflexivity.
  rewrite Hrun in Htrue. discriminate Htrue.
Defined.

(** A refused token, a network that never answers, a page denied its
    storage. *)
Lemma isLoggedIn_rejects_only_blocked_example :
  (∃ (b : bool) w',
     isLoggedIn_on Accessible (prompt strict_server) client (holding "abc")
     = Settles (Resolved b) w'
     ∧ b = false
     ∧ localStorage w' = delete "auth_token" (localStorage (holding "abc"))
     ∧ stored_token w' = None)
  ∧ isLoggedIn_on Accessible stalled client (holding "abc")
    = Waits (sent (validate_request client (Some "abc")) (holding "abc")).
Proof.
  split.
  - destruct (proj1 (isLoggedIn_rejects_only_blocked (prompt strict_server) client
                       (holding "abc"))
                {| settled_at := 1;
                   outcome := Resolved {| status := 401; body_json := no_body |} |}
                eq_refl)
      as (b & w' & Hrun & Hb & Hstorage & Htoken).
    vm_compute in Hb. subst b. exists false, w'.
    split; [exact Hrun|]. split; [reflexivity|]. split; [exact Hstorage|exact Htoken].
  - apply (proj1 (proj2 (isLoggedIn_rejects_only_blocked stalled client (holding "abc")))).
    reflexivity.
Defined.

(** With the page denied its storage, [isLoggedIn] rejects: the server
    would have accepted the token, had it been asked. *)
Lemma isLoggedIn_blocked_storage_counterexample :
  isLoggedIn_on (Blocked storage_denied) (prompt bob_server) client (holding "abc")
  = Settles (Rejected storage_denied)
      (logged "Error validating token: " storage_denied (holding "abc"))
  ∧ ¬ (∃ (b : bool) w',
         isLoggedIn_on (Blocked storage_denied) (prompt bob_server) client (holding "abc")
         = Settles (Resolved b) w').
Proof.
  split; [reflexivity|].
  intros (b & w' & Hrun). discriminate Hrun.
Defined.

(** Logging out of a server that answers 204, and logging out offline. *)
Lemma logout_example :
  (∃ w', logout bob_server client (holding "abc") = (Resolved tt, w')
         ∧ localStorage w' = delete "auth_token" (localStorage (holding "abc"))
         ∧ stored_token w' = None)
  ∧ (∃ w', logout offline client (holding "abc")
           = (Rejected (HostError "TypeError" "Failed to fetch"), w')
           ∧ localStorage w' = localStorage (holding "abc")
           ∧ stored_token w' = Some "abc").
Proof.
  split.
  - apply (proj1 (logout_contract bob_server client (holding "abc"))
             {| status := 204; body_json := no_body |}).
    reflexivity.
  - apply (proj2 (logout_contract offline client (holding "abc"))).
    reflexivity.
Defined.

(** [/login] answers 403: the login rejects, the store keeps [abc]. *)
Lemma login_refused_example :
  ∃ w', login strict_server client "bob" "pw" true (holding "abc")
        = (Rejected (Error "Login failed"), w')
        ∧ localStorage w' = localStorage (holding "abc")
        ∧ stored_token w' = Some "abc".
Proof.
  apply (login_refused_contract strict_server client "bob" "pw" true (holding "abc")
           {| status := 403; body_json := no_body |}).
  - reflexivity.
  - simpl. lia.
Defined.

(** The scenario of the specification: [login("bob", "pw", true)]. *)
Lemma login_remember_me_example :
  stored_token (login bob_server client "bob" "pw" true fresh).2 = Some "tok123"
  ∧ (login bob_server client "bob" "pw" true fresh).1
    = Resolved {| profile := JObject [("name", JString "Bob")];
                  roles := JArray [JString "admin"] |}.
Proof.
  destruct (login_remember_me bob_server client "bob" "pw" "tok123" fresh
              {| status := 200; body_json := Resolved (JString "tok123") |})
    as (Hstore & Hresult & _).
  - reflexivity.
  - simpl. lia.
  - reflexivity.
  - split; [exact Hstore|].
    eapply Hresult; reflexivity.
Defined.

(** The roles request fails after the token is written: the login rejects
    and the token stays.  And a login answered without a body leaves the
    store as it was. *)
Lemma login_fails_after_accept_example :
  (∃ e w', login forgetful_server client "bob" "pw" true fresh = (Rejected e, w')
           ∧ stored_token w' = Some "tok123")
  ∧ (∃ w', login silent_server client "bob" "pw" true fresh
           = (Rejected (HostError "SyntaxError" "Unexpected end of JSON input"), w')
           ∧ localStorage w' = localStorage fresh
           ∧ stored_token w' = None).
Proof.
  split.
  - apply (proj1 (login_fails_after_accept forgetful_server client "bob" "pw" fresh
                    {| status := 200; body_json := Resolved (JString "tok123") |}
                    eq_refl ltac:(simpl; lia))
             (JString "tok123") "tok123" eq_refl eq_refl).
    right. left. eexists. reflexivity.
  - apply (proj2 (login_fails_after_accept silent_server client "bob" "pw" fresh
                    {| status := 200; body_json := no_body |}
                    eq_refl ltac:(simpl; lia))).
    reflexivity.
Defined.

(** [/login] answers 200 with a body that does not parse: a later step of
    the login has failed and the login rejects, yet no token is stored. *)
Lemma login_unreadable_token_counterexample :
  let run := login silent_server client "bob" "pw" true fresh in
  outcome (silent_server (network fresh) (login_request client "bob" "pw"))
  = Resolved {| status := 200; body_json := no_body |}
  ∧ run.1 = Rejected (HostError "SyntaxError" "Unexpected end of JSON input")
  ∧ ¬ (∃ token, stored_token run.2 = Some token).
Proof.
  intros run. split; [reflexivity|]. split; [reflexivity|].
  intros [token Htoken].
  assert (Hnone : stored_token run.2 = None) by reflexivity.
  rewrite Hnone in Htoken. discriminate Htoken.
Defined.

End Examples.

(** ** Beyond the contract: [getProfileForLoggedInUser] *)

Section Profile.
Context `{JSNumber} (net : Network).
Implicit Types (this : AuthenticationManager) (w : World) (r : Response).

Lemma rethrown_network {A : Type} (label : string) (run : Outcome A * World) :
  network (rethrown label run).2 = network run.2.
Proof. destruct run as [[a|e] w]; reflexivity. Qed.

Lemma rethrown_console {A : Type} (label : string) (run : Outcome A * World) :
  console (rethrown label run).2
  = (console run.2 ++ match run.1 with Resolved _ => [] | Rejected e => [(label, e)] end)%list.
Proof. destruct run as [[a|e] w]; simpl; [rewrite app_nil_r|]; reflexivity. Qed.

(** The joint wait and the two body reads. *)
Lemma join_run (p1 p2 : Promise Response) w :
  ('(profileResponse, rolesResponse) ← await (Promise_all p1 p2);
   profile ← await (json profileResponse);
   roles ← await (json rolesResponse);
   mret {| profile := profile; roles := roles |}) w
  = (combined p1 p2, w).
Proof.
  rewrite run_await. unfold combined.
  destruct (outcome (Promise_all p1 p2)) as [[a b]|e]; [|reflexivity].
  rewrite run_await. simpl outcome.
  destruct (body_json a); [|destruct (body_json b); reflexivity].
  rewrite run_await. simpl outcome.
  destruct (body_json b); reflexivity.
Qed.

(** Every path through [getProfileForLoggedInUser]. *)
Lemma getProfileForLoggedInUser_run this w :
  let rq := whoami_request this (stored_token w) in
  getProfileForLoggedInUser net this w
  = rethrown "Error fetching profile: "
      match outcome (net (network w) rq) with
      | Rejected e => (Rejected e, sent rq w)
      | Resolved userResponse =>
          match body_json userResponse with
          | Rejected e => (Rejected e, sent rq w)
          | Resolved user =>
              match destructure "username" user with
              | Rejected e => (Rejected e, sent rq w)
              | Resolved username =>
                  match ToString_value username with
                  | None => (Rejected TypeError, sent rq w)
                  | Some name =>
                      (combined
                         (net (network (sent rq w)) (profile_request this name))
                         (net (network (sent (profile_request this name) (sent rq w)))
                            (roles_request this name)),
                       sent (roles_request this name)
                         (sent (profile_request this name) (sent rq w)))
                  end
              end
          end
      end.
Proof.
  intros rq. unfold getProfileForLoggedInUser. rewrite try_catch_rethrown. f_equal.
  rewrite run_start. unfold localStorage_getItem at 1 2. simpl fst; simpl snd.
  fold (stored_token w).
  rewrite run_start, request_run. simpl fst; simpl snd.
  fold (whoami_request this (stored_token w)). fold rq.
  rewrite run_await. destruct (outcome (net (network w) rq)) as [ur|e]; [|reflexivity].
  rewrite run_await. simpl outcome. destruct (body_json ur) as [user|e]; [|reflexivity].
  change ((settle (destructure "username" user) ≫= ?k) (sent rq w))
    with (match destructure "username" user with
          | Resolved a => k a (sent rq w)
          | Rejected e => (Rejected e, sent rq w)
          end).
  destruct (destructure "username" user) as [username|e]; [|reflexivity].
  destruct (ToString_value username) as [name|] eqn:Hname; [|reflexivity].
  simpl or_TypeError. rewrite run_mret.
  rewrite run_start, request_run. simpl fst; simpl snd.
  rewrite run_mret.
  rewrite run_start, request_run. simpl fst; simpl snd.
  fold (profile_request this name) (roles_request this name).
  apply join_run.
Qed.

(** X1. [getProfileForLoggedInUser] looks at no status.  When the request
    to [/get?token=...] completes, with any status, and its body names a
    user, and the profile and roles requests of that user complete, with
    any status, with bodies that parse, it resolves to the two parsed
    bodies; it has issued exactly those three requests, in that order, and
    has written nothing to the console or the store. *)
Theorem getProfileForLoggedInUser_resolves this w ur user username name pr rr (p r : JSON) :
  let rq := whoami_request this (stored_token w) in
  outcome (net (network w) rq) = Resolved ur →
  body_json ur = Resolved user →
  destructure "username" user = Resolved username →
  ToString_value username = Some name →
  outcome (net (network (sent rq w)) (profile_request this name)) = Resolved pr →
  outcome (net (network (sent (profile_request this name) (sent rq w)))
             (roles_request this name)) = Resolved rr →
  body_json pr = Resolved p →
  body_json rr = Resolved r →
  ∃ w', getProfileForLoggedInUser net this w = (Resolved {| profile := p; roles := r |}, w')
        ∧ network w' = (network w ++ [rq; profile_request this name; roles_request this name])%list
        ∧ console w' = console w
        ∧ localStorage w' = localStorage w.
Proof.
  intros rq Hur Huser Hname Hstr Hpr Hrr Hp Hr.
  rewrite getProfileForLoggedInUser_run. fold rq.
  rewrite Hur, Huser, Hname, Hstr.
  rewrite (combined_resolves _ _ pr rr p r Hpr Hrr Hp Hr).
  eexists. split; [reflexivity|]. simpl.
  rewrite <- !app_assoc. repeat split.
Qed.

(** X2. When the request to [/get?token=...] does not complete, or its
    body does not parse, [getProfileForLoggedInUser] rejects with that very
    reason after one request and one line on the console; the profile and
    the roles are not asked for and the store is as it was. *)
Theorem getProfileForLoggedInUser_unknown_user this w e :
  let rq := whoami_request this (stored_token w) in
  (outcome (net (network w) rq) = Rejected e
   ∨ ∃ ur, outcome (net (network w) rq) = Resolved ur ∧ body_json ur = Rejected e) →
  getProfileForLoggedInUser net this w
  = (Rejected e, logged "Error fetching profile: " e (sent rq w)).
Proof.
  intros rq Hfail. rewrite getProfileForLoggedInUser_run. fold rq.
  destruct Hfail as [Hr|(ur & Hr & Hbody)].
  - rewrite Hr. reflexivity.
  - rewrite Hr, Hbody. reflexivity.
Qed.

(** X3. What the body of [/get?token=...] may be.  A body [null] cannot be
    destructured: the call rejects with a [TypeError] after that one
    request.  Any other body without a [username] of its own - a string, a
    number, an array, an object with other keys - yields [undefined], which
    goes into the paths as the text [undefined]: the profile and roles of a
    user of that name are requested. *)
Theorem getProfileForLoggedInUser_without_username this w ur user :
  let rq := whoami_request this (stored_token w) in
  outcome (net (network w) rq) = Resolved ur →
  body_json ur = Resolved user →
  (user = JNull →
     getProfileForLoggedInUser net this w
     = (Rejected TypeError, logged "Error fetching profile: " TypeError (sent rq w)))
  ∧ (user ≠ JNull →
     (∀ properties, user = JObject properties → own_property "username" properties = None) →
     network (getProfileForLoggedInUser net this w).2
     = (network w ++ [rq; profile_request this "undefined";
                      roles_request this "undefined"])%list).
Proof.
  intros rq Hur Huser. rewrite getProfileForLoggedInUser_run. fold rq.
  rewrite Hur, Huser. split.
  - intros ->. reflexivity.
  - intros Hnull Hown.
    assert (Hd : destructure "username" user = Resolved None).
    { destruct user; try reflexivity; [congruence|].
      simpl. rewrite (Hown _ eq_refl). reflexivity. }
    rewrite Hd. simpl ToString_value. cbv iota.
    rewrite rethrown_network. simpl. rewrite <- !app_assoc. reflexivity.
Qed.

End Profile.

(** ** Beyond the contract: what no method does *)

Section Keeps.
Context {A B : Type} (R : World → World → Prop).
Hypothesis R_refl : ∀ w, R w w.
Hypothesis R_trans : ∀ w1 w2 w3, R w1 w2 → R w2 w3 → R w1 w3.

Lemma keeps_mret (a : A) : step_keeps R (mret a).
Proof. intros w. apply R_refl. Qed.

Lemma keeps_throw (e : JSError) : step_keeps R (@throw A e).
Proof. intros w. apply R_refl. Qed.

Lemma keeps_settle (o : Outcome A) : step_keeps R (settle o).
Proof. intros w. apply R_refl. Qed.

Lemma keeps_await (p : Promise A) : step_keeps R (await p).
Proof. intros w. apply R_refl. Qed.

Lemma keeps_or_TypeError (o : option A) : step_keeps R (or_TypeError o).
Proof. intros w. destruct o; apply R_refl. Qed.

Lemma keeps_start (e : Eff A) : (∀ w, R w (e w).2) → step_keeps R (start e).
Proof. intros He w. unfold start. specialize (He w). destruct (e w). exact He. Qed.

Lemma keeps_bind (m : Async A) (k : A → Async B) :
  step_keeps R m → (∀ a, step_keeps R (k a)) → step_keeps R (m ≫= k).
Proof.
  intros Hm Hk w. unfold mbind, Async_bind.
  specialize (Hm w). destruct (m w) as [[a|e] w']; simpl in *.
  - eapply R_trans; [exact Hm|apply Hk].
  - exact Hm.
Qed.

Lemma keeps_try_catch (body : Async A) (handler : JSError → Async A) :
  step_keeps R body → (∀ e, step_keeps R (handler e)) → step_keeps R (try_catch body handler).
Proof.
  intros Hb Hh w. unfold try_catch.
  specialize (Hb w). destruct (body w) as [[a|e] w']; simpl in *.
  - exact Hb.
  - eapply R_trans; [exact Hb|apply Hh].
Qed.

End Keeps.

(** Walks down a method body; [leaf] closes the steps that touch the
    world. *)
Ltac keeps refl trans leaf :=
  repeat match goal with
  | |- step_keeps _ (mbind _ _) => apply (keeps_bind _ trans)
  | |- step_keeps _ (try_catch _ _) => apply (keeps_try_catch _ trans)
  | |- step_keeps _ (if ?b then _ else _) => destruct b
  | |- step_keeps _ (let '(_, _) := ?x in _) => destruct x
  | |- ∀ _, _ => intro
  | |- step_keeps _ (mret _) => apply (keeps_mret _ refl)
  | |- step_keeps _ (throw _) => apply (keeps_throw _ refl)
  | |- step_keeps _ (settle _) => apply (keeps_settle _ refl)
  | |- step_keeps _ (await _) => apply (keeps_await _ refl)
  | |- step_keeps _ (or_TypeError _) => apply (keeps_or_TypeError _ refl)
  | |- step_keeps _ (start _) => apply keeps_start; intro; leaf
  end.

Section Untouched.
Context `{JSNumber} (net : Network).
Implicit Types (this : AuthenticationManager) (w : World) (r : Response).

Lemma other_keys_refl w : other_keys_kept w w.
Proof. intros key _. reflexivity. Qed.

Lemma other_keys_trans w1 w2 w3 :
  other_keys_kept w1 w2 → other_keys_kept w2 w3 → other_keys_kept w1 w3.
Proof. intros H12 H23 key Hkey. rewrite (H23 key Hkey). apply H12, Hkey. Qed.

Lemma other_keys_setItem (value : string) w :
  other_keys_kept w (localStorage_setItem "auth_token" value w).2.
Proof. intros key Hkey. simpl. apply lookup_insert_ne. congruence. Qed.

Lemma other_keys_removeItem w :
  other_keys_kept w (localStorage_removeItem "auth_token" w).2.
Proof. intros key Hkey. simpl. apply lookup_delete_ne. congruence. Qed.

Ltac other_keys :=
  keeps other_keys_refl other_keys_trans
    ltac:(first [ apply other_keys_setItem | apply other_keys_removeItem
                | intros ? _; reflexivity ]).

(** X4. No public method touches a key of [localStorage] other than
    [auth_token]: whatever the network does and however the call settles,
    every other key holds after the call what it held before. *)
Theorem other_keys_untouched this (username password : string) (rememberMe : bool) w key :
  key ≠ "auth_token" →
  localStorage (isLoggedIn net this w).2 !! key = localStorage w !! key
  ∧ localStorage (login net this username password rememberMe w).2 !! key
    = localStorage w !! key
  ∧ localStorage (getProfileForLoggedInUser net this w).2 !! key = localStorage w !! key
  ∧ localStorage (logout net this w).2 !! key = localStorage w !! key.
Proof.
  intros Hkey.
  assert (H1 : step_keeps other_keys_kept (isLoggedIn net this))
    by (unfold isLoggedIn, validateToken; other_keys).
  assert (H2 : step_keeps other_keys_kept (login net this username password rememberMe))
    by (unfold login; other_keys).
  assert (H3 : step_keeps other_keys_kept (getProfileForLoggedInUser net this))
    by (unfold getProfileForLoggedInUser; other_keys).
  assert (H4 : step_keeps other_keys_kept (logout net this))
    by (unfold logout; other_keys).
  repeat split; [apply H1|apply H2|apply H3|apply H4]; exact Hkey.
Qed.

End Untouched.

Section Requests.
Context `{JSNumber} (net : Network).
Implicit Types (this : AuthenticationManager) (w : World) (r : Response).

Lemma requests_added_none this w w' : network w' = network w → requests_added this w w'.
Proof. intros Hn. exists []. split; [rewrite Hn; symmetry; apply app_nil_r|constructor]. Qed.

Lemma requests_added_refl this w : requests_added this w w.
Proof. apply requests_added_none. reflexivity. Qed.

Lemma requests_added_trans this w1 w2 w3 :
  requests_added this w1 w2 → requests_added this w2 w3 → requests_added this w1 w3.
Proof.
  intros (new1 & H1 & F1) (new2 & H2 & F2). exists (new1 ++ new2)%list. split.
  - rewrite H2, H1. symmetry. apply app_assoc.
  - apply Forall_app. split; assumption.
Qed.

Lemma carries_defaults_get this (path : string) :
  carries_defaults this (the_request this path ∅).
Proof. split; [exists path; reflexivity|]. repeat split. Qed.

Lemma carries_defaults_post this (path body : string) :
  carries_defaults this (the_request this path (post body)).
Proof. split; [exists path; reflexivity|]. repeat split. Qed.

Lemma requests_added_request this (path : string) (options : gmap string InitValue) w :
  carries_defaults this (the_request this path options) →
  requests_added this w (request net this path options w).2.
Proof. intros Hd. exists [the_request this path options]. split; [reflexivity|]. auto. Qed.

Ltac requests this :=
  keeps (requests_added_refl this) (requests_added_trans this)
    ltac:(first [ apply requests_added_request;
                  first [ apply carries_defaults_get | apply carries_defaults_post ]
                | apply requests_added_none; reflexivity ]).

(** X5. No public method forgets or reorders a request already made, and
    every request it adds goes to a URL that starts with [baseUrl] and
    carries the three defaults untouched: CORS mode, the JSON content type
    as its only header, and the no-referrer policy. *)
Theorem requests_carry_defaults this (username password : string) (rememberMe : bool) w :
  requests_added this w (isLoggedIn net this w).2
  ∧ requests_added this w (login net this username password rememberMe w).2
  ∧ requests_added this w (getProfileForLoggedInUser net this w).2
  ∧ requests_added this w (logout net this w).2.
Proof.
  assert (H1 : step_keeps (requests_added this) (isLoggedIn net this))
    by (unfold isLoggedIn, validateToken; requests this).
  assert (H2 : step_keeps (requests_added this) (login net this username password rememberMe))
    by (unfold login; requests this).
  assert (H3 : step_keeps (requests_added this) (getProfileForLoggedInUser net this))
    by (unfold getProfileForLoggedInUser; requests this).
  assert (H4 : step_keeps (requests_added this) (logout net this))
    by (unfold logout; requests this).
  repeat split; [apply H1|apply H2|apply H3|apply H4].
Qed.

End Requests.

(** ** Beyond the contract: [login] *)

Section MoreLogin.
Context `{JSNumber} (net : Network).
Implicit Types (this : AuthenticationManager) (w : World) (r : Response).

(** The login is accepted with a body that parses to a value [setItem]
    cannot turn into a string. *)
Lemma login_token_unprintable this username password w r token :
  outcome (net (network w) (login_request this username password)) = Resolved r →
  ok r = true →
  body_json r = Resolved token →
  ToString token = None →
  login net this username password true w
  = (Rejected TypeError,
     logged "Login error: " TypeError (sent (login_request this username password) w)).
Proof.
  intros Hr Hok Hbody Hvalue. rewrite login_run, Hr, Hok. simpl negb. cbv iota.
  rewrite run_mret, run_assoc, run_await. simpl outcome. rewrite Hbody.
  rewrite run_assoc, Hvalue. reflexivity.
Qed.

(** X6. [login] issues one request or three.  After the login request
    come the profile and the roles requests, both or neither, in that
    order: both when the login is accepted and the caller does not ask to
    be remembered; neither when the login request does not complete or is
    answered with a status outside 200-299. *)
Theorem login_requests this (username password : string) (rememberMe : bool) w :
  let rq := login_request this username password in
  let trace := network (login net this username password rememberMe w).2 in
  (trace = (network w ++ [rq])%list
   ∨ trace = (network w ++ [rq; profile_request this username;
                            roles_request this username])%list)
  ∧ (∀ lr, outcome (net (network w) rq) = Resolved lr → 200 ≤ status lr ≤ 299 →
       rememberMe = false →
       trace = (network w ++ [rq; profile_request this username;
                              roles_request this username])%list)
  ∧ ((∀ lr, outcome (net (network w) rq) = Resolved lr → ¬ (200 ≤ status lr ≤ 299)) →
       trace = (network w ++ [rq])%list).
Proof.
  intros rq trace. unfold trace.
  destruct (outcome (net (network w) rq)) as [lr|e] eqn:Hr.
  - destruct (ok lr) eqn:Hok.
    + assert (Hthree : ∀ w',
          network w' = (network w ++ [rq])%list →
          network (sent (roles_request this username)
                     (sent (profile_request this username) w'))
          = (network w ++ [rq; profile_request this username;
                           roles_request this username])%list).
      { intros w' Hw'. simpl. rewrite Hw', <- !app_assoc. reflexivity. }
      split; [|split].
      * destruct rememberMe.
        -- destruct (body_json lr) as [token|e] eqn:Hbody.
           ++ destruct (ToString token) as [value|] eqn:Hvalue.
              ** right. rewrite (login_remembered _ _ _ _ _ _ _ _ Hr Hok Hbody Hvalue).
                 rewrite rethrown_network. apply Hthree. reflexivity.
              ** left. rewrite (login_token_unprintable _ _ _ _ _ _ Hr Hok Hbody Hvalue).
                 reflexivity.
           ++ left. rewrite (login_body_unreadable _ _ _ _ _ _ _ Hr Hok Hbody). reflexivity.
        -- right. rewrite (login_not_remembered _ _ _ _ _ _ Hr Hok).
           rewrite rethrown_network. apply Hthree. reflexivity.
      * intros lr' [= <-] _ ->. rewrite (login_not_remembered _ _ _ _ _ _ Hr Hok).
        rewrite rethrown_network. apply Hthree. reflexivity.
      * intros Hnot. apply ok_status in Hok. destruct (Hnot lr eq_refl Hok).
    + rewrite (login_refused _ _ _ _ _ _ _ Hr Hok). simpl.
      split; [left; reflexivity|]. split; [|reflexivity].
      intros lr' [= <-] Hs. apply ok_status in Hs. congruence.
  - rewrite (login_unreachable _ _ _ _ _ _ _ Hr). simpl.
    split; [left; reflexivity|]. split; [discriminate|reflexivity].
Qed.

(** X7. When the request to [/login] does not complete, [login] rejects
    with the reason of the request, for either value of [rememberMe]: one
    request made, one line on the console, the store as it was. *)
Theorem login_unreachable_contract this (username password : string) (rememberMe : bool) w e :
  let rq := login_request this username password in
  outcome (net (network w) rq) = Rejected e →
  ∃ w', login net this username password rememberMe w = (Rejected e, w')
        ∧ localStorage w' = localStorage w
        ∧ network w' = (network w ++ [rq])%list
        ∧ console w' = (console w ++ [("Login error: ", e)])%list.
Proof.
  intros rq Hr. rewrite (login_unreachable _ _ _ _ _ _ _ Hr).
  eexists. repeat split.
Qed.

(** X8. With [rememberMe = true], what [login] stores is the string
    [setItem] makes of the parsed body, whatever JSON value that is: the
    text [null] for a body [null], the text [[object Object]] for an
    object.  A body that cannot be made a string (an object with a
    [toString] property of its own) makes [login] reject with a [TypeError]
    before anything is stored or requested. *)
Theorem login_stores_conversion this (username password : string) w lr token :
  let rq := login_request this username password in
  outcome (net (network w) rq) = Resolved lr →
  200 ≤ status lr ≤ 299 →
  body_json lr = Resolved token →
  (∀ value, ToString token = Some value →
     stored_token (login net this username password true w).2 = Some value)
  ∧ (token = JNull →
     stored_token (login net this username password true w).2 = Some "null")
  ∧ (∀ properties, token = JObject properties → own_property "toString" properties = None →
     stored_token (login net this username password true w).2 = Some "[object Object]")
  ∧ (ToString token = None →
     login net this username password true w
     = (Rejected TypeError, logged "Login error: " TypeError (sent rq w))).
Proof.
  intros rq Hr Hs Hbody. apply ok_status in Hs.
  assert (Hstore : ∀ value, ToString token = Some value →
            stored_token (login net this username password true w).2 = Some value).
  { intros value Hvalue.
    rewrite (login_remembered _ _ _ _ _ _ _ _ Hr Hs Hbody Hvalue).
    unfold stored_token. rewrite rethrown_storage. simpl. apply lookup_insert_eq. }
  split; [exact Hstore|]. split; [|split].
  - intros ->. apply Hstore. reflexivity.
  - intros properties -> Hown. apply Hstore. simpl. rewrite Hown. reflexivity.
  - intros Hvalue. apply (login_token_unprintable _ _ _ _ _ _ Hr Hs Hbody Hvalue).
Qed.

(** X9. With [rememberMe = false], when the login is accepted and the
    profile and roles requests complete, with any status, with bodies that
    parse, [login] resolves to the two parsed bodies and the store is as it
    was: the token in the body of the login response is not read. *)
Theorem login_session_only this (username password : string) w lr pr rr (p r : JSON) :
  let rq := login_request this username password in
  outcome (net (network w) rq) = Resolved lr →
  200 ≤ status lr ≤ 299 →
  outcome (net (network (sent rq w)) (profile_request this username)) = Resolved pr →
  outcome (net (network (sent (profile_request this username) (sent rq w)))
             (roles_request this username)) = Resolved rr →
  body_json pr = Resolved p →
  body_json rr = Resolved r →
  ∃ w', login net this username password false w
        = (Resolved {| profile := p; roles := r |}, w')
        ∧ localStorage w' = localStorage w
        ∧ console w' = console w.
Proof.
  intros rq Hr Hs Hpr Hrr Hp Hrb. apply ok_status in Hs.
  rewrite (login_not_remembered _ _ _ _ _ _ Hr Hs).
  set (c := combined _ _).
  assert (Hc : c = Resolved {| profile := p; roles := r |})
    by exact (combined_resolves _ _ pr rr p r Hpr Hrr Hp Hrb).
  rewrite Hc. eexists. repeat split.
Qed.

(** X10. Which failure [login] reports when the login is accepted, the two
    later requests are made - so, with [rememberMe = true], the body of
    the login response has given a token that could be stored - and they
    go wrong together.  If both requests fail, the reason is that of the
    one that fails first (the profile request when they fail together).
    If the profile request completes with a body that does not parse while
    the roles request fails, the reason is the roles failure: the joint
    wait rejects before any body is read.  If both complete with bodies
    that do not parse, the reason is that of the profile body, which is
    read first. *)
Theorem login_error_precedence this (username password : string) (rememberMe : bool) w lr :
  let rq := login_request this username password in
  let p1 := net (network (sent rq w)) (profile_request this username) in
  let p2 := net (network (sent (profile_request this username) (sent rq w)))
              (roles_request this username) in
  outcome (net (network w) rq) = Resolved lr →
  200 ≤ status lr ≤ 299 →
  (rememberMe = true →
     ∃ token value, body_json lr = Resolved token ∧ ToString token = Some value) →
  (∀ e1 e2, outcome p1 = Rejected e1 → outcome p2 = Rejected e2 →
     (login net this username password rememberMe w).1
     = Rejected (if (settled_at p1 <=? settled_at p2)%nat then e1 else e2))
  ∧ (∀ pr e1 e2, outcome p1 = Resolved pr → body_json pr = Rejected e1 →
       outcome p2 = Rejected e2 →
       (login net this username password rememberMe w).1 = Rejected e2)
  ∧ (∀ pr rr e1 e2, outcome p1 = Resolved pr → body_json pr = Rejected e1 →
       outcome p2 = Resolved rr → body_json rr = Rejected e2 →
       (login net this username password rememberMe w).1 = Rejected e1).
Proof.
  intros rq p1 p2 Hr Hs Htoken. apply ok_status in Hs.
  assert (Hrun : (login net this username password rememberMe w).1 = combined p1 p2).
  { destruct rememberMe.
    - destruct (Htoken eq_refl) as (token & value & Hbody & Hvalue).
      rewrite (login_remembered _ _ _ _ _ _ _ _ Hr Hs Hbody Hvalue), rethrown_outcome.
      reflexivity.
    - rewrite (login_not_remembered _ _ _ _ _ _ Hr Hs), rethrown_outcome.
      reflexivity. }
  rewrite Hrun. unfold combined, Promise_all. split; [|split].
  - intros e1 e2 -> ->. destruct (_ <=? _)%nat; reflexivity.
  - intros pr e1 e2 -> _ ->. reflexivity.
  - intros pr rr e1 e2 -> Hb1 -> Hb2. simpl. rewrite Hb1. reflexivity.
Qed.

End MoreLogin.

(** ** Beyond the contract: the console *)

Section Console.
Context `{JSNumber} (net : Network).
Implicit Types (this : AuthenticationManager) (w : World) (r : Response).

Lemma console_kept_refl w : console_kept w w.
Proof. reflexivity. Qed.

Lemma console_kept_trans w1 w2 w3 :
  console_kept w1 w2 → console_kept w2 w3 → console_kept w1 w3.
Proof. unfold console_kept. congruence. Qed.

Ltac quiet :=
  keeps console_kept_refl console_kept_trans ltac:(unfold console_kept; reflexivity).

(** A [try] body that writes nothing to the console, under the [catch]
    clause that logs and rethrows. *)
Lemma rethrown_quiet_body {A : Type} (label : string) (body : Async A) w :
  step_keeps console_kept body →
  console (rethrown label (body w)).2
  = (console w ++ match (rethrown label (body w)).1 with
                  | Resolved _ => []
                  | Rejected e => [(label, e)]
                  end)%list.
Proof.
  intros Hquiet. rewrite rethrown_console, rethrown_outcome, (Hquiet w). reflexivity.
Qed.

(** X11. [login], [getProfileForLoggedInUser] and [logout] write to the
    console exactly when they reject, and then exactly one line: their own
    label with the reason they reject with.  A call that resolves leaves
    the console as it was. *)
Theorem rejections_logged this (username password : string) (rememberMe : bool) w :
  console (login net this username password rememberMe w).2
  = (console w ++ match (login net this username password rememberMe w).1 with
                  | Resolved _ => []
                  | Rejected e => [("Login error: ", e)]
                  end)%list
  ∧ console (getProfileForLoggedInUser net this w).2
    = (console w ++ match (getProfileForLoggedInUser net this w).1 with
                    | Resolved _ => []
                    | Rejected e => [("Error fetching profile: ", e)]
                    end)%list
  ∧ console (logout net this w).2
    = (console w ++ match (logout net this w).1 with
                    | Resolved _ => []
                    | Rejected e => [("Logout error: ", e)]
                    end)%list.
Proof.
  split; [|split].
  - unfold login. rewrite try_catch_rethrown.
    apply rethrown_quiet_body. quiet.
  - unfold getProfileForLoggedInUser. rewrite try_catch_rethrown.
    apply rethrown_quiet_body. quiet.
  - unfold logout. rewrite try_catch_rethrown.
    apply rethrown_quiet_body. quiet.
Qed.

(** X12. What a call of [isLoggedIn] leaves behind.  On a host that lets
    the page at its storage, once the validation request settles: exactly
    one request has been made, the validation of the stored token (of
    [null] when there is none); a line is on the console only when that
    request did not complete; and [auth_token] is kept when the answer has
    a status in 200-299 and removed otherwise - a token the server refuses
    is removed without a line.  Where reading [localStorage] throws: no
    request is made, one line is on the console and the store is as it
    was. *)
Theorem isLoggedIn_effects (slow : SlowNetwork) this w :
  let rq := validate_request this (stored_token w) in
  (∀ p, slow (network w) rq = Some p →
     let w' := world_of (isLoggedIn_on Accessible slow this w) in
     network w' = (network w ++ [rq])%list
     ∧ console w'
       = (console w ++ match outcome p with
                       | Resolved _ => []
                       | Rejected e => [("Error validating token: ", e)]
                       end)%list
     ∧ localStorage w'
       = match outcome p with
         | Resolved r =>
             if bool_decide (200 ≤ status r ≤ 299) then localStorage w
             else delete "auth_token" (localStorage w)
         | Rejected _ => delete "auth_token" (localStorage w)
         end)
  ∧ (∀ e, let w' := world_of (isLoggedIn_on (Blocked e) slow this w) in
          network w' = network w
          ∧ console w' = (console w ++ [("Error validating token: ", e)])%list
          ∧ localStorage w' = localStorage w).
Proof.
  intros rq. split.
  - intros p Hp. rewrite isLoggedIn_on_run. fold rq. rewrite Hp.
    destruct (outcome p) as [r|e].
    + case_bool_decide as Hs.
      * apply ok_status in Hs. rewrite Hs.
        split; [reflexivity|]. split; [symmetry; apply app_nil_r|reflexivity].
      * apply not_ok_status in Hs. rewrite Hs.
        split; [reflexivity|]. split; [symmetry; apply app_nil_r|reflexivity].
    + split; [reflexivity|]. split; reflexivity.
  - intros e. rewrite isLoggedIn_on_run. split; [reflexivity|]. split; reflexivity.
Qed.

End Console.

(** ** Beyond the contract: one call after another *)

Section Sessions.
Context `{JSNumber} (net : Network).
Implicit Types (this : AuthenticationManager) (w : World) (r : Response).

Lemma login_session_preserves this (username password : string) :
  preserves_storage (login net this username password false).
Proof. unfold login. lazy iota. frame. Qed.

Lemma isLoggedIn_settles this w :
  let rq := validate_request this (stored_token w) in
  ∃ (b : bool) w',
    isLoggedIn net this w = (Resolved b, w')
    ∧ network w' = (network w ++ [rq])%list
    ∧ stored_token w' = if b then stored_token w else None.
Proof.
  intros rq. rewrite isLoggedIn_run. fold rq.
  destruct (outcome (net (network w) rq)) as [r|e].
  - destruct (ok r); do 2 eexists; repeat split. apply lookup_delete_eq.
  - do 2 eexists. repeat split. apply lookup_delete_eq.
Qed.

Lemma getProfileForLoggedInUser_first_request this w :
  ∃ rest,
    network (getProfileForLoggedInUser net this w).2
    = (network w ++ whoami_request this (stored_token w) :: rest)%list.
Proof.
  rewrite getProfileForLoggedInUser_run, rethrown_network.
  set (rq := whoami_request this (stored_token w)).
  destruct (outcome (net (network w) rq)) as [ur|e]; [|exists []; reflexivity].
  destruct (body_json ur) as [user|e]; [|exists []; reflexivity].
  destruct (destructure "username" user) as [username|e]; [|exists []; reflexivity].
  destruct (ToString_value username) as [name|]; [|exists []; reflexivity].
  exists [profile_request this name; roles_request this name].
  simpl. rewrite <- !app_assoc. reflexivity.
Qed.

Lemma logout_settles this w :
  let rq := logout_request this (stored_token w) in
  network (logout net this w).2 = (network w ++ [rq])%list
  ∧ ∀ r, outcome (net (network w) rq) = Resolved r →
      (logout net this w).1 = Resolved tt
      ∧ localStorage (logout net this w).2 = delete "auth_token" (localStorage w).
Proof.
  intros rq. rewrite logout_run. fold rq.
  destruct (outcome (net (network w) rq)) as [r|e].
  - split; [reflexivity|]. intros _ _. split; reflexivity.
  - split; [reflexivity|]. discriminate.
Qed.

(** X13. The session a remembered login opens.  Once [login] with
    [rememberMe = true] has been accepted with a body [setItem] makes the
    string [value] of - whether it then resolves or rejects - the next
    call works with that token: [isLoggedIn] validates it and keeps it
    exactly when it answers [true]; [getProfileForLoggedInUser] first asks
    whose token it is; [logout] posts it and, when its request completes,
    leaves [localStorage] as it was before the login, less any older
    token. *)
Theorem session_after_login this (username password : string) w lr token value :
  let rq := login_request this username password in
  let w1 := (login net this username password true w).2 in
  outcome (net (network w) rq) = Resolved lr →
  200 ≤ status lr ≤ 299 →
  body_json lr = Resolved token →
  ToString token = Some value →
  (∃ (b : bool) w2,
     isLoggedIn net this w1 = (Resolved b, w2)
     ∧ network w2 = (network w1 ++ [validate_request this (Some value)])%list
     ∧ stored_token w2 = if b then Some value else None)
  ∧ (∃ rest, network (getProfileForLoggedInUser net this w1).2
             = (network w1 ++ whoami_request this (Some value) :: rest)%list)
  ∧ network (logout net this w1).2 = (network w1 ++ [logout_request this (Some value)])%list
  ∧ (∀ r, outcome (net (network w1) (logout_request this (Some value))) = Resolved r →
       (logout net this w1).1 = Resolved tt
       ∧ localStorage (logout net this w1).2 = delete "auth_token" (localStorage w)).
Proof.
  intros rq w1 Hr Hs Hbody Hvalue. apply ok_status in Hs.
  assert (Hstorage : localStorage w1 = <["auth_token" := value]> (localStorage w)).
  { unfold w1. rewrite (login_remembered _ _ _ _ _ _ _ _ Hr Hs Hbody Hvalue).
    rewrite rethrown_storage. reflexivity. }
  assert (Htoken : stored_token w1 = Some value).
  { unfold stored_token. rewrite Hstorage. apply lookup_insert_eq. }
  split; [|split; [|split]].
  - destruct (isLoggedIn_settles this w1) as (b & w2 & Hrun & Hnet & Hstore).
    rewrite Htoken in Hnet, Hstore. eauto.
  - destruct (getProfileForLoggedInUser_first_request this w1) as [rest Hrest].
    rewrite Htoken in Hrest. eauto.
  - destruct (logout_settles this w1) as [Hnet _]. rewrite Htoken in Hnet. exact Hnet.
  - intros r Hout. destruct (logout_settles this w1) as [_ Hdone].
    rewrite Htoken in Hdone. destruct (Hdone r Hout) as [Hres Hsto].
    split; [exact Hres|]. rewrite Hsto, Hstorage. apply delete_insert_eq.
Qed.

(** X14. A login that is not remembered opens no session.  After [login]
    with [rememberMe = false], however it settles, the next [isLoggedIn]
    validates, and the next [getProfileForLoggedInUser] asks about, the
    token that was stored before the login - [null] if there was none -
    and not the one the server has just issued. *)
Theorem session_after_unremembered_login this (username password : string) w :
  let w1 := (login net this username password false w).2 in
  (∃ (b : bool) w2,
     isLoggedIn net this w1 = (Resolved b, w2)
     ∧ network w2 = (network w1 ++ [validate_request this (stored_token w)])%list)
  ∧ (∃ rest, network (getProfileForLoggedInUser net this w1).2
             = (network w1 ++ whoami_request this (stored_token w) :: rest)%list).
Proof.
  intros w1.
  assert (Htoken : stored_token w1 = stored_token w).
  { unfold stored_token, w1. rewrite login_session_preserves. reflexivity. }
  split.
  - destruct (isLoggedIn_settles this w1) as (b & w2 & Hrun & Hnet & _).
    rewrite Htoken in Hnet. eauto.
  - destruct (getProfileForLoggedInUser_first_request this w1) as [rest Hrest].
    rewrite Htoken in Hrest. eauto.
Qed.

(** X15. Logging out, or checking the login, with nothing stored.  With
    no token in the store [logout] still posts to [/logout], with a null
    token, and when that request completes it resolves and leaves the
    whole of [localStorage] as it was; and [isLoggedIn], whatever it
    answers, changes nothing in [localStorage]. *)
Theorem nothing_stored this w :
  stored_token w = None →
  network (logout net this w).2 = (network w ++ [logout_request this None])%list
  ∧ (∀ r, outcome (net (network w) (logout_request this None)) = Resolved r →
       (logout net this w).1 = Resolved tt
       ∧ localStorage (logout net this w).2 = localStorage w)
  ∧ localStorage (isLoggedIn net this w).2 = localStorage w.
Proof.
  intros Hnone. destruct (logout_settles this w) as [Hnet Hdone].
  rewrite Hnone in Hnet, Hdone. split; [exact Hnet|]. split.
  - intros r Hout. destruct (Hdone r Hout) as [Hres Hsto].
    split; [exact Hres|]. rewrite Hsto. apply delete_id, Hnone.
  - rewrite isLoggedIn_run.
    destruct (outcome (net (network w) (validate_request this (stored_token w)))) as [r|e];
      [destruct (ok r)|];
      first [ reflexivity | exact (delete_id (localStorage w) "auth_token" Hnone) ].
Qed.

End Sessions.

(** ** Beyond the contract: what the request bodies say *)

Section Bodies.
Implicit Types (this : AuthenticationManager) (s rest : string).

Lemma string_app_assoc s1 s2 s3 : (s1 +:+ s2) +:+ s3 = s1 +:+ (s2 +:+ s3).
Proof.
  induction s1 as [|a s1 IH]; [reflexivity|].
  change (String a ((s1 +:+ s2) +:+ s3) = String a (s1 +:+ (s2 +:+ s3))).
  rewrite IH. reflexivity.
Qed.

(** What [quote_char] writes, a parser reads back as the character. *)
Lemma unquote_quote_char (c : ascii) rest :
  unquote_char (quote_char c +:+ rest) = Some (c, rest).
Proof.
  destruct c as [b0 b1 b2 b3 b4 b5 b6 b7].
  destruct b0, b1, b2, b3, b4, b5, b6, b7; reflexivity.
Qed.

Lemma quote_chars_inj s1 : ∀ s2 rest1 rest2,
  quote_chars s1 +:+ String dquote rest1 = quote_chars s2 +:+ String dquote rest2 →
  s1 = s2 ∧ rest1 = rest2.
Proof.
  induction s1 as [|c1 s1 IH]; intros [|c2 s2] rest1 rest2 Heq.
  - injection Heq as ->. split; reflexivity.
  - apply (f_equal unquote_char) in Heq.
    change (quote_chars (String c2 s2)) with (quote_char c2 +:+ quote_chars s2) in Heq.
    rewrite string_app_assoc, unquote_quote_char in Heq. discriminate Heq.
  - apply (f_equal unquote_char) in Heq.
    change (quote_chars (String c1 s1)) with (quote_char c1 +:+ quote_chars s1) in Heq.
    rewrite string_app_assoc, unquote_quote_char in Heq. discriminate Heq.
  - apply (f_equal unquote_char) in Heq.
    change (quote_chars (String c1 s1)) with (quote_char c1 +:+ quote_chars s1) in Heq.
    change (quote_chars (String c2 s2)) with (quote_char c2 +:+ quote_chars s2) in Heq.
    rewrite !string_app_assoc, !unquote_quote_char in Heq.
    injection Heq as -> Heq. destruct (IH _ _ _ Heq) as [-> ->]. split; reflexivity.
Qed.

Lemma quoted_then s rest :
  QuoteJSONString s +:+ rest = String dquote (quote_chars s +:+ String dquote rest).
Proof.
  unfold QuoteJSONString.
  change (String dquote ((quote_chars s +:+ String dquote EmptyString) +:+ rest)
          = String dquote (quote_chars s +:+ String dquote rest)).
  rewrite string_app_assoc. reflexivity.
Qed.

Lemma quoted_inj s1 s2 rest1 rest2 :
  QuoteJSONString s1 +:+ rest1 = QuoteJSONString s2 +:+ rest2 → s1 = s2 ∧ rest1 = rest2.
Proof.
  rewrite !quoted_then. intros [= Heq]. apply quote_chars_inj, Heq.
Qed.

Lemma stringify_value_inj (v1 v2 : option string) rest1 rest2 :
  stringify_value v1 +:+ rest1 = stringify_value v2 +:+ rest2 → rest1 = rest2 → v1 = v2.
Proof.
  destruct v1 as [s1|], v2 as [s2|]; unfold stringify_value.
  - intros Heq _. apply quoted_inj in Heq as [-> _]. reflexivity.
  - rewrite quoted_then. discriminate.
  - rewrite quoted_then. discriminate.
  - reflexivity.
Qed.

(** The body of a request made by [post]. *)
Lemma post_body this (path body : string) :
  init (the_request this path (post body)) !! "body" = Some (Str body).
Proof. reflexivity. Qed.

Lemma post_body_inj this (path body1 body2 : string) :
  the_request this path (post body1) = the_request this path (post body2) → body1 = body2.
Proof.
  intros Heq. apply (f_equal (λ r, init r !! "body")) in Heq.
  rewrite !post_body in Heq. congruence.
Qed.

Lemma stringify_token_inj (t1 t2 : option string) :
  JSON_stringify [("token", t1)] = JSON_stringify [("token", t2)] → t1 = t2.
Proof.
  unfold JSON_stringify. cbn [stringify_properties].
  rewrite !string_app_assoc. intros Heq.
  apply (inj (String.append "{")) in Heq.
  apply quoted_inj in Heq as [_ Heq].
  apply (inj (String.append ":")) in Heq.
  apply (stringify_value_inj _ _ _ _ Heq). reflexivity.
Qed.

Lemma stringify_credentials_inj (u1 p1 u2 p2 : string) :
  JSON_stringify [("username", Some u1); ("password", Some p1)]
  = JSON_stringify [("username", Some u2); ("password", Some p2)] →
  u1 = u2 ∧ p1 = p2.
Proof.
  unfold JSON_stringify. cbn [stringify_properties stringify_value].
  rewrite !string_app_assoc. intros Heq.
  apply (inj (String.append "{")) in Heq.
  apply quoted_inj in Heq as [_ Heq].
  apply (inj (String.append ":")) in Heq.
  apply quoted_inj in Heq as [-> Heq].
  apply (inj (String.append ",")) in Heq.
  apply quoted_inj in Heq as [_ Heq].
  apply (inj (String.append ":")) in Heq.
  apply quoted_inj in Heq as [-> _].
  split; reflexivity.
Qed.

(** X16. The bodies the client posts say what it was given.  Two
    validation requests, or two logout requests, that are equal carry the
    same token (and no token is told apart from every token), and two login
    requests that are equal carry the same username and the same password:
    quotes, backslashes and control characters in them are escaped, so no
    credential can pass for another.  The query string of
    [getProfileForLoggedInUser] is not so careful: no token and the token
    [null] make the same request. *)
Theorem bodies_tell_credentials_apart this :
  (∀ t1 t2 : option string, validate_request this t1 = validate_request this t2 → t1 = t2)
  ∧ (∀ t1 t2 : option string, logout_request this t1 = logout_request this t2 → t1 = t2)
  ∧ (∀ u1 p1 u2 p2 : string,
       login_request this u1 p1 = login_request this u2 p2 → u1 = u2 ∧ p1 = p2)
  ∧ whoami_request this None = whoami_request this (Some "null").
Proof.
  split; [|split; [|split]].
  - intros t1 t2 Heq. apply post_body_inj in Heq. apply stringify_token_inj, Heq.
  - intros t1 t2 Heq. apply post_body_inj in Heq. apply stringify_token_inj, Heq.
  - intros u1 p1 u2 p2 Heq. apply post_body_inj in Heq.
    apply stringify_credentials_inj, Heq.
  - reflexivity.
Qed.

End Bodies.

(** ** More of the client at work *)

Section MoreExamples.
Import Scenario.
Existing Instance integers.

(** A 401 with a readable body is a user all the same. *)
Lemma getProfileForLoggedInUser_resolves_example :
  ∃ w', getProfileForLoggedInUser grumpy_server client (holding "abc")
        = (Resolved {| profile := JObject [("error", JString "no profile")];
                       roles := JArray [] |}, w')
        ∧ network w' = [whoami_request client (Some "abc"); profile_request client "bob";
                        roles_request client "bob"]
        ∧ console w' = []
        ∧ localStorage w' = localStorage (holding "abc").
Proof.
  apply (getProfileForLoggedInUser_resolves grumpy_server client (holding "abc")
           {| status := 401; body_json := Resolved (JObject [("username", JString "bob")]) |}
           (JObject [("username", JString "bob")]) (Some (JString "bob")) "bob"
           {| status := 404;
              body_json := Resolved (JObject [("error", JString "no profile")]) |}
           {| status := 500; body_json := Resolved (JArray []) |});
    reflexivity.
Defined.

Lemma getProfileForLoggedInUser_unknown_user_example :
  getProfileForLoggedInUser offline client (holding "abc")
  = (Rejected (HostError "TypeError" "Failed to fetch"),
     logged "Error fetching profile: " (HostError "TypeError" "Failed to fetch")
       (sent (whoami_request client (Some "abc")) (holding "abc"))).
Proof.
  apply (getProfileForLoggedInUser_unknown_user offline client (holding "abc")).
  left. reflexivity.
Defined.

Lemma getProfileForLoggedInUser_without_username_example :
  getProfileForLoggedInUser (whoami_server JNull) client (holding "abc")
  = (Rejected TypeError,
     logged "Error fetching profile: " TypeError
       (sent (whoami_request client (Some "abc")) (holding "abc")))
  ∧ network (getProfileForLoggedInUser (whoami_server (JString "bob")) client
               (holding "abc")).2
    = [whoami_request client (Some "abc"); profile_request client "undefined";
       roles_request client "undefined"].
Proof.
  split.
  - apply (proj1 (getProfileForLoggedInUser_without_username (whoami_server JNull) client
                    (holding "abc") {| status := 200; body_json := Resolved JNull |}
                    JNull eq_refl eq_refl)).
    reflexivity.
  - apply (proj2 (getProfileForLoggedInUser_without_username
                    (whoami_server (JString "bob")) client (holding "abc")
                    {| status := 200; body_json := Resolved (JString "bob") |}
                    (JString "bob") eq_refl eq_refl)).
    + discriminate.
    + discriminate.
Defined.

Lemma other_keys_untouched_example :
  localStorage (isLoggedIn strict_server client (themed "abc")).2 !! "theme" = Some "dark"
  ∧ localStorage (login bob_server client "bob" "pw" true (themed "abc")).2 !! "theme"
    = Some "dark"
  ∧ localStorage (getProfileForLoggedInUser offline client (themed "abc")).2 !! "theme"
    = Some "dark"
  ∧ localStorage (logout bob_server client (themed "abc")).2 !! "theme" = Some "dark".
Proof.
  assert (Hkey : "theme" ≠ "auth_token") by discriminate.
  pose proof (other_keys_untouched strict_server client "bob" "pw" true (themed "abc")
                "theme" Hkey) as (H1 & _ & _ & _).
  pose proof (other_keys_untouched bob_server client "bob" "pw" true (themed "abc")
                "theme" Hkey) as (_ & H2 & _ & H4).
  pose proof (other_keys_untouched offline client "bob" "pw" true (themed "abc")
                "theme" Hkey) as (_ & _ & H3 & _).
  split; [exact H1|]. split; [exact H2|]. split; [exact H3|exact H4].
Defined.

Lemma login_requests_example :
  network (login bob_server client "bob" "pw" false fresh).2
  = [login_request client "bob" "pw"; profile_request client "bob";
     roles_request client "bob"]
  ∧ network (login strict_server client "bob" "pw" false fresh).2
    = [login_request client "bob" "pw"].
Proof.
  split.
  - apply (proj1 (proj2 (login_requests bob_server client "bob" "pw" false fresh))
             {| status := 200; body_json := Resolved (JString "tok123") |}).
    + reflexivity.
    + simpl. lia.
    + reflexivity.
  - apply (proj2 (proj2 (login_requests strict_server client "bob" "pw" false fresh))).
    intros lr [= <-]. simpl. lia.
Defined.

Lemma login_unreachable_example :
  ∃ w', login offline client "bob" "pw" true (holding "abc")
        = (Rejected (HostError "TypeError" "Failed to fetch"), w')
        ∧ localStorage w' = localStorage (holding "abc")
        ∧ network w' = [login_request client "bob" "pw"]
        ∧ console w' = [("Login error: ", HostError "TypeError" "Failed to fetch")].
Proof.
  apply (login_unreachable_contract offline client "bob" "pw" true (holding "abc")).
  reflexivity.
Defined.

Lemma login_stores_conversion_example :
  stored_token (login (issuing_server JNull) client "bob" "pw" true fresh).2 = Some "null"
  ∧ stored_token
      (login (issuing_server (JObject [("token", JString "tok123")])) client "bob" "pw"
         true fresh).2
    = Some "[object Object]"
  ∧ login (issuing_server (JObject [("toString", JNull)])) client "bob" "pw" true fresh
    = (Rejected TypeError,
       logged "Login error: " TypeError (sent (login_request client "bob" "pw") fresh)).
Proof.
  split; [|split].
  - apply (proj1 (proj2 (login_stores_conversion (issuing_server JNull) client "bob" "pw"
                           fresh {| status := 200; body_json := Resolved JNull |} JNull
                           eq_refl ltac:(simpl; lia) eq_refl))).
    reflexivity.
  - apply (proj1 (proj2 (proj2 (login_stores_conversion
             (issuing_server (JObject [("token", JString "tok123")])) client "bob" "pw" fresh
             {| status := 200;
                body_json := Resolved (JObject [("token", JString "tok123")]) |}
             (JObject [("token", JString "tok123")])
             eq_refl ltac:(simpl; lia) eq_refl)))
             [("token", JString "tok123")]); reflexivity.
  - apply (proj2 (proj2 (proj2 (login_stores_conversion
             (issuing_server (JObject [("toString", JNull)])) client "bob" "pw" fresh
             {| status := 200; body_json := Resolved (JObject [("toString", JNull)]) |}
             (JObject [("toString", JNull)])
             eq_refl ltac:(simpl; lia) eq_refl)))).
    reflexivity.
Defined.

Lemma login_session_only_example :
  ∃ w', login bob_server client "bob" "pw" false (holding "old")
        = (Resolved {| profile := JObject [("name", JString "Bob")];
                       roles := JArray [JString "admin"] |}, w')
        ∧ localStorage w' = localStorage (holding "old")
        ∧ console w' = [].
Proof.
  apply (login_session_only bob_server client "bob" "pw" (holding "old")
           {| status := 200; body_json := Resolved (JString "tok123") |}
           {| status := 200; body_json := Resolved (JObject [("name", JString "Bob")]) |}
           {| status := 200; body_json := Resolved (JArray [JString "admin"]) |});
    first [ reflexivity | simpl; lia ].
Defined.

(** The roles request fails first, so its reason is the one reported,
    remembered or not. *)
Lemma login_error_precedence_example :
  (login failing_server client "bob" "pw" false fresh).1
  = Rejected (HostError "TypeError" "roles")
  ∧ (login failing_server client "bob" "pw" true fresh).1
    = Rejected (HostError "TypeError" "roles").
Proof.
  split.
  - apply (proj1 (login_error_precedence failing_server client "bob" "pw" false fresh
                    {| status := 200; body_json := Resolved (JString "tok123") |}
                    eq_refl ltac:(simpl; lia) ltac:(discriminate))
             (HostError "TypeError" "profile") (HostError "TypeError" "roles"));
      reflexivity.
  - apply (proj1 (login_error_precedence failing_server client "bob" "pw" true fresh
                    {| status := 200; body_json := Resolved (JString "tok123") |}
                    eq_refl ltac:(simpl; lia)
                    (λ _, ex_intro _ (JString "tok123")
                            (ex_intro _ "tok123" (conj eq_refl eq_refl))))
             (HostError "TypeError" "profile") (HostError "TypeError" "roles"));
      reflexivity.
Defined.

(** A refused token goes without a line; a page denied its storage gets
    a line and no request. *)
Lemma isLoggedIn_effects_example :
  (let w' := world_of (isLoggedIn_on Accessible (prompt strict_server) client
                         (holding "abc")) in
   network w' = [validate_request client (Some "abc")]
   ∧ console w' = []
   ∧ localStorage w' = delete "auth_token" (localStorage (holding "abc")))
  ∧ (let w' := world_of (isLoggedIn_on (Blocked storage_denied) (prompt bob_server) client
                           (holding "abc")) in
     network w' = []
     ∧ console w' = [("Error validating token: ", storage_denied)]
     ∧ localStorage w' = localStorage (holding "abc")).
Proof.
  split.
  - apply (proj1 (isLoggedIn_effects (prompt strict_server) client (holding "abc"))
             {| settled_at := 1;
                outcome := Resolved {| status := 401; body_json := no_body |} |}).
    reflexivity.
  - apply (proj2 (isLoggedIn_effects (prompt bob_server) client (holding "abc"))).
Defined.

Lemma session_after_login_example :
  let w1 := (login bob_server client "bob" "pw" true fresh).2 in
  (∃ (b : bool) w2,
     isLoggedIn bob_server client w1 = (Resolved b, w2)
     ∧ network w2 = (network w1 ++ [validate_request client (Some "tok123")])%list
     ∧ stored_token w2 = if b then Some "tok123" else None)
  ∧ (logout bob_server client w1).1 = Resolved tt
  ∧ localStorage (logout bob_server client w1).2 = delete "auth_token" (localStorage fresh).
Proof.
  intros w1.
  pose proof (session_after_login bob_server client "bob" "pw" fresh
                {| status := 200; body_json := Resolved (JString "tok123") |}
                (JString "tok123") "tok123" eq_refl ltac:(simpl; lia) eq_refl eq_refl)
    as (Hcheck & _ & _ & Hout).
  split; [exact Hcheck|].
  apply (Hout {| status := 204; body_json := no_body |}). reflexivity.
Defined.

Lemma nothing_stored_example :
  network (logout bob_server client fresh).2 = [logout_request client None]
  ∧ (logout bob_server client fresh).1 = Resolved tt
  ∧ localStorage (logout bob_server client fresh).2 = localStorage fresh
  ∧ localStorage (isLoggedIn strict_server client fresh).2 = localStorage fresh.
Proof.
  pose proof (nothing_stored bob_server client fresh eq_refl) as (Hnet & Hout & _).
  pose proof (nothing_stored strict_server client fresh eq_refl) as (_ & _ & Hcheck).
  destruct (Hout {| status := 204; body_json := no_body |} eq_refl) as [Hres Hsto].
  split; [exact Hnet|]. split; [exact Hres|]. split; [exact Hsto|exact Hcheck].
Defined.

(** Two spellings of a request mean one token. *)
Lemma bodies_tell_credentials_apart_example :
  Some "tok123" = Some ("tok" +:+ "123")
  ∧ whoami_request client None = whoami_request client (Some "null").
Proof.
  split.
  - apply (proj1 (bodies_tell_credentials_apart client)). reflexivity.
  - apply (proj2 (proj2 (proj2 (bodies_tell_credentials_apart client)))).
Defined.

End MoreExamples.
